(** * The multisig session state controller (containers/context.js)

    A shallow embedding of [MultisigContextProvider]: the component state,
    the operations stored in [this.state] and [loadInformation], together
    with the collaborators they call (the [utils] chain queries, the Beacon
    wallet, the contract entry points and the IPFS client).

    Conventions of the embedding.
    - A JavaScript value that may be [undefined] is an [option]; a string is
      falsy when it is [undefined] or empty.
    - Every operation is an [async] function. It is embedded as a [Task]: a
      function on the [Machine] (component state, browser local storage,
      wallet account, the record of collaborator calls, the console and the
      sequence of snapshots published by [this.setState]) which runs the
      operation to its end, the answers of the collaborators being read
      from an environment [Env]. One environment stands for what the chain,
      the wallet and IPFS answer during one operation: one fetch generation.
    - [this.setState(patch)] merges the patch at once and publishes the
      merged snapshot.
    - A JavaScript [TypeError] is an abrupt completion of the task.
    - The amounts and the balance are JavaScript numbers holding integers;
      the running total of a mutez transfer is added as doubles are. *)

From Stdlib Require Import ZArith List String Bool Lia.
Import ListNotations.

Local Open Scope string_scope.
Local Open Scope Z_scope.

(** ** Data *)

(** The contract storage as the controller reads it: [storage.users],
    [storage.minimum_votes], [storage.expiration_time], and the two big maps
    [storage.proposals] and [storage.votes], which [utils] receives as
    handles (their big-map identifiers). *)
Module Storage.
Record t : Type := mk {
  users : list string;
  minimum_votes : Z;
  expiration_time : Z;
  proposals : Z;
  votes : Z
}.
End Storage.

(** The reference returned by [utils.getContract(tezos, address)]. *)
Inductive Contract : Type :=
| ContractAt (address : string).

(** The operation returned by [send()]; [opHash] is the only field read. *)
Record Operation : Type := mkOperation { opHash : string }.

(** One element of the [transfers] array of a transfer proposal. *)
Record Transfer : Type := mkTransfer {
  destination : string;
  amount : Z
}.

(** ** JavaScript numbers

    The amounts and the balance are JavaScript numbers, IEEE-754 doubles,
    holding integers (mutez). An integer is a double when it is small
    enough or a multiple of a large enough power of two; the sum of two
    doubles is the double nearest to their exact sum, a tie going to the
    one with the even significand, and an infinity beyond the largest
    double. *)

(** The value of a running total: an integer-valued double or an
    infinity. *)
Inductive Number : Type :=
| Finite (z : Z)
| Infinity (negative : bool).

(** The multiple of [q] nearest to [n], the even multiple on a tie
    ([0 <= n], [0 < q]). *)
Definition roundHalfEven (n q : Z) : Z :=
  let k := n / q in
  let r := n mod q in
  if 2 * r <? q then k * q
  else if q <? 2 * r then (k + 1) * q
  else if Z.even k then k * q
  else (k + 1) * q.

(** The double nearest to the integer [z]: [z] itself up to [2^53] in
    magnitude; beyond, [z] rounded to the 53 significant bits of a double;
    an infinity from [2^1024] on. *)
Definition toNumber (z : Z) : Number :=
  let n := Z.abs z in
  if n <=? 2 ^ 53 then Finite z
  else
    let r := roundHalfEven n (2 ^ (Z.log2 n - 52)) in
    if r <? 2 ^ 1024 then Finite (Z.sgn z * r) else Infinity (z <? 0).

(** [total + amount] on numbers, the amount being finite: an infinity
    stays what it is. *)
Definition addAmount (total : Number) (a : Z) : Number :=
  match total with
  | Finite x => toNumber (x + a)
  | Infinity negative => Infinity negative
  end.

Definition UserAliases : Type := list (string * string).
Definition BigmapKeys : Type := list (Z * string).
Definition UserVotes : Type := list (Z * bool).
Definition Micheline : Type := string.

(** The entry points of the multisig contract the controller invokes
    ([contract.methods.x] and [contract.methodsObject.x]). *)
Inductive EntryPoint : Type :=
| text_proposal
| transfer_mutez_proposal
| transfer_token_proposal
| minimum_votes_proposal
| expiration_time_proposal
| add_user_proposal
| remove_user_proposal
| lambda_function_proposal
| vote_proposal
| execute_proposal.

(** The parameters an entry point is applied to. *)
Inductive Parameters : Type :=
| PHex (hex : string)
| PTransfers (transfers : list Transfer)
| PTokenTransfers (fa2 : string) (token_id : Z) (distribution : list Transfer)
| PNumber (n : Z)
| PAddress (a : string)
| PLambda (code : Micheline)
| PVote (proposalId : Z) (approval : bool)
| PExecute (proposalId : Z).

(** The argument of [originate]. *)
Record OriginateParameters : Type := mkOriginateParameters {
  name : string;
  o_users : list string;
  minimumVotes : Z;
  expirationTime : Z
}.

(** The initial storage [originate] builds for the new contract. *)
Record OriginationStorage : Type := mkOriginationStorage {
  og_counter : Z;
  og_expiration_time : Z;
  og_metadata : list (string * string);
  og_minimum_votes : Z;
  og_proposals : list (Z * string);
  og_users : list string;
  og_votes : list (Z * bool)
}.

(** A file chosen in a form: its name and its bytes. *)
Record File : Type := mkFile { file_name : string; file_bytes : string }.

(** What is handed to [ipfsClient.add]. *)
Inductive Content : Type :=
| MetadataJson (metadata_name : string)
| FileContent (f : File).

(** ** The component state *)

Record State : Type := mkState {
  userAddress : option string;
  contractAddresses : option (list string);
  contractAddress : string;
  storage : option Storage.t;
  balance : option Z;
  userAliases : option UserAliases;
  proposals : option BigmapKeys;
  userVotes : option UserVotes;
  contract : option Contract;
  informationMessage : option string;
  confirmationMessage : option string;
  errorMessage : option string
}.

(** Field updates: one per key that a [setState] patch of the source sets. *)
Definition with_userAddress (v : option string) (s : State) : State :=
  mkState v (contractAddresses s) (contractAddress s) (storage s) (balance s)
    (userAliases s) (proposals s) (userVotes s) (contract s)
    (informationMessage s) (confirmationMessage s) (errorMessage s).

Definition with_contractAddresses (v : option (list string)) (s : State) : State :=
  mkState (userAddress s) v (contractAddress s) (storage s) (balance s)
    (userAliases s) (proposals s) (userVotes s) (contract s)
    (informationMessage s) (confirmationMessage s) (errorMessage s).

Definition with_contractAddress (v : string) (s : State) : State :=
  mkState (userAddress s) (contractAddresses s) v (storage s) (balance s)
    (userAliases s) (proposals s) (userVotes s) (contract s)
    (informationMessage s) (confirmationMessage s) (errorMessage s).

Definition with_storage (v : option Storage.t) (s : State) : State :=
  mkState (userAddress s) (contractAddresses s) (contractAddress s) v (balance s)
    (userAliases s) (proposals s) (userVotes s) (contract s)
    (informationMessage s) (confirmationMessage s) (errorMessage s).

Definition with_balance (v : option Z) (s : State) : State :=
  mkState (userAddress s) (contractAddresses s) (contractAddress s) (storage s) v
    (userAliases s) (proposals s) (userVotes s) (contract s)
    (informationMessage s) (confirmationMessage s) (errorMessage s).

Definition with_userAliases (v : option UserAliases) (s : State) : State :=
  mkState (userAddress s) (contractAddresses s) (contractAddress s) (storage s)
    (balance s) v (proposals s) (userVotes s) (contract s)
    (informationMessage s) (confirmationMessage s) (errorMessage s).

Definition with_proposals (v : option BigmapKeys) (s : State) : State :=
  mkState (userAddress s) (contractAddresses s) (contractAddress s) (storage s)
    (balance s) (userAliases s) v (userVotes s) (contract s)
    (informationMessage s) (confirmationMessage s) (errorMessage s).

Definition with_userVotes (v : option UserVotes) (s : State) : State :=
  mkState (userAddress s) (contractAddresses s) (contractAddress s) (storage s)
    (balance s) (userAliases s) (proposals s) v (contract s)
    (informationMessage s) (confirmationMessage s) (errorMessage s).

Definition with_contract (v : option Contract) (s : State) : State :=
  mkState (userAddress s) (contractAddresses s) (contractAddress s) (storage s)
    (balance s) (userAliases s) (proposals s) (userVotes s) v
    (informationMessage s) (confirmationMessage s) (errorMessage s).

Definition with_informationMessage (v : option string) (s : State) : State :=
  mkState (userAddress s) (contractAddresses s) (contractAddress s) (storage s)
    (balance s) (userAliases s) (proposals s) (userVotes s) (contract s)
    v (confirmationMessage s) (errorMessage s).

Definition with_confirmationMessage (v : option string) (s : State) : State :=
  mkState (userAddress s) (contractAddresses s) (contractAddress s) (storage s)
    (balance s) (userAliases s) (proposals s) (userVotes s) (contract s)
    (informationMessage s) v (errorMessage s).

Definition with_errorMessage (v : option string) (s : State) : State :=
  mkState (userAddress s) (contractAddresses s) (contractAddress s) (storage s)
    (balance s) (userAliases s) (proposals s) (userVotes s) (contract s)
    (informationMessage s) (confirmationMessage s) v.

(** JavaScript truthiness of a string and of a possibly undefined string. *)
Definition truthy (a : string) : bool := negb (a =? "")%string.

Definition truthy_opt (a : option string) : bool :=
  match a with
  | Some x => truthy x
  | None => false
  end.

(** [x || d] on strings, as in the constructor's
    [window.localStorage.multisigContractAddress || DEFAULT_CONTRACT_ADDRESS]. *)
Definition or_default (x : option string) (d : string) : string :=
  match x with
  | Some v => if truthy v then v else d
  | None => d
  end.

(** The state built by the constructor. *)
Definition initialState (stored : option string) (DEFAULT_CONTRACT_ADDRESS : string) : State :=
  {| userAddress := None;
     contractAddresses := None;
     contractAddress := or_default stored DEFAULT_CONTRACT_ADDRESS;
     storage := None;
     balance := None;
     userAliases := None;
     proposals := None;
     userVotes := None;
     contract := None;
     informationMessage := None;
     confirmationMessage := None;
     errorMessage := None |}.

(** ** Collaborators *)

(** The calls the controller makes to its collaborators: the chain query
    layer ([utils]), the wallet, the contract entry points and IPFS. *)
Inductive Call : Type :=
| CallGetSimilarContractAddresses (a : string)
| CallGetContractStorage (a : string)
| CallGetBalance (a : string)
| CallGetUserAliases (us : list string)
| CallGetBigmapKeys (bigmap : Z)
| CallGetUserVotes (user : option string) (bigmap : Z)
| CallGetContract (a : string)
| CallGetUserAddress
| CallRequestPermissions
| CallClearActiveAccount
| CallSend (c : Contract) (ep : EntryPoint) (p : Parameters)
| CallConfirmation (op : Operation)
| CallIpfsAdd (content : Content)
| CallOriginate (initial : OriginationStorage)
| CallOriginationOperation (op : Operation).

(** What the collaborators answer during one operation. A promise that
    rejects, or a query that yields [undefined], answers [None]. The two
    library functions the controller calls ([validateAddress] of
    [@taquito/utils], the Micheline parser) and [utils.stringToHex] are
    part of the environment too; the parser answers [None] when it throws. *)
Module Env.
Record t : Type := mk {
  NETWORK : string;
  validateAddress : string -> Z;
  parseMichelineExpression : string -> option Micheline;
  stringToHex : string -> string;
  getSimilarContractAddresses : string -> option (list string);
  getContractStorage : string -> option Storage.t;
  getBalance : string -> option Z;
  getUserAliases : list string -> option UserAliases;
  getBigmapKeys : Z -> option BigmapKeys;
  getUserVotes : option string -> Z -> option UserVotes;
  getContract : string -> option Contract;
  requestPermissions : option string;
  send : Contract -> EntryPoint -> Parameters -> option Operation;
  confirmation : Operation -> bool;
  add : Content -> option string;
  originate : OriginationStorage -> option Operation;
  originationOperation : Operation -> option string
}.
End Env.

(** ** The machine and its tasks *)

Record Machine : Type := mkMachine {
  state : State;
  multisigContractAddress : option string;
  activeAccount : option string;
  metadataName : option string;
  calls : list Call;
  console : list string;
  published : list State
}.

Inductive Exception : Type :=
| TypeError (message : string).

Inductive Completion (A : Type) : Type :=
| Normal (a : A)
| Abrupt (e : Exception).

Arguments Normal {A} a.
Arguments Abrupt {A} e.

Definition Task (A : Type) : Type := Machine -> Completion A * Machine.

Definition ret {A : Type} (a : A) : Task A := fun m => (Normal a, m).

Definition bind {A B : Type} (t : Task A) (k : A -> Task B) : Task B :=
  fun m =>
    match t m with
    | (Normal a, m') => k a m'
    | (Abrupt e, m') => (Abrupt e, m')
    end.

Declare Scope task_scope.
Delimit Scope task_scope with task.
Notation "x <- t ;; k" := (bind t (fun x => k))
  (at level 61, t at next level, right associativity) : task_scope.
Notation "t ;;; k" := (bind t (fun _ => k))
  (at level 61, right associativity) : task_scope.
Local Open Scope task_scope.

Definition throw {A : Type} (e : Exception) : Task A := fun m => (Abrupt e, m).

(** Reading [this.state]. *)
Definition getState : Task State := fun m => (Normal (state m), m).

(** [this.setState(patch)]: merge and publish. *)
Definition setState (patch : State -> State) : Task unit :=
  fun m =>
    let s := patch (state m) in
    (Normal tt,
     mkMachine s (multisigContractAddress m) (activeAccount m) (metadataName m)
       (calls m) (console m) (published m ++ [s])).

(** [console.log]. *)
Definition log (line : string) : Task unit :=
  fun m =>
    (Normal tt,
     mkMachine (state m) (multisigContractAddress m) (activeAccount m)
       (metadataName m) (calls m) (console m ++ [line]) (published m)).

(** A call to a collaborator is recorded; its answer comes from [Env]. *)
Definition call {A : Type} (c : Call) (answer : A) : Task A :=
  fun m =>
    (Normal answer,
     mkMachine (state m) (multisigContractAddress m) (activeAccount m)
       (metadataName m) (calls m ++ [c]) (console m) (published m)).

(** An [async] function called without [await]: it runs, but how it
    completes does not reach the caller. *)
Definition detached (t : Task unit) : Task unit :=
  fun m => (Normal tt, snd (t m)).

(** [window.localStorage.multisigContractAddress = a]. *)
Definition storeContractAddress (a : string) : Task unit :=
  fun m =>
    (Normal tt,
     mkMachine (state m) (Some a) (activeAccount m) (metadataName m)
       (calls m) (console m) (published m)).

(** [multisigContractMetadata.name = n]. *)
Definition setMetadataName (n : string) : Task unit :=
  fun m =>
    (Normal tt,
     mkMachine (state m) (multisigContractAddress m) (activeAccount m) (Some n)
       (calls m) (console m) (published m)).

Definition getMetadataName : Task (option string) :=
  fun m => (Normal (metadataName m), m).

(** ** The operations of the controller *)

Section Controller.

(** The answers of the collaborators during the operation. *)
Variable E : Env.t.

(** *** Collaborator calls *)

(** Modelled from the spec: the wallet connector (the Beacon wallet is a
    library and [utils.getUserAddress] is in containers/utils.js, which is
    not among the sources). [requestPermissions] makes the granted account
    the active one and leaves the wallet as it is when it rejects;
    [getActiveAddress] answers the active account; [clearActiveAccount]
    removes it. *)
Definition wallet_requestPermissions : Task bool :=
  fun m =>
    match Env.requestPermissions E with
    | Some a =>
        (Normal true,
         mkMachine (state m) (multisigContractAddress m) (Some a) (metadataName m)
           (calls m ++ [CallRequestPermissions]) (console m) (published m))
    | None =>
        (Normal false,
         mkMachine (state m) (multisigContractAddress m) (activeAccount m)
           (metadataName m) (calls m ++ [CallRequestPermissions]) (console m)
           (published m))
    end.

(** Modelled from the spec: [utils.getUserAddress(wallet)], the wallet
    interface's [getActiveAddress() -> optional address]. *)
Definition utils_getUserAddress : Task (option string) :=
  fun m =>
    (Normal (activeAccount m),
     mkMachine (state m) (multisigContractAddress m) (activeAccount m)
       (metadataName m) (calls m ++ [CallGetUserAddress]) (console m)
       (published m)).

(** Modelled from the spec: [wallet.clearActiveAccount()]. *)
Definition wallet_clearActiveAccount : Task unit :=
  fun m =>
    (Normal tt,
     mkMachine (state m) (multisigContractAddress m) None (metadataName m)
       (calls m ++ [CallClearActiveAccount]) (console m) (published m)).

Definition utils_getSimilarContractAddresses (a : string) : Task (option (list string)) :=
  call (CallGetSimilarContractAddresses a) (Env.getSimilarContractAddresses E a).

Definition utils_getContractStorage (a : string) : Task (option Storage.t) :=
  call (CallGetContractStorage a) (Env.getContractStorage E a).

Definition utils_getBalance (a : string) : Task (option Z) :=
  call (CallGetBalance a) (Env.getBalance E a).

Definition utils_getUserAliases (us : list string) : Task (option UserAliases) :=
  call (CallGetUserAliases us) (Env.getUserAliases E us).

Definition utils_getBigmapKeys (bigmap : Z) : Task (option BigmapKeys) :=
  call (CallGetBigmapKeys bigmap) (Env.getBigmapKeys E bigmap).

Definition utils_getUserVotes (user : option string) (bigmap : Z) : Task (option UserVotes) :=
  call (CallGetUserVotes user bigmap) (Env.getUserVotes E user bigmap).

Definition utils_getContract (a : string) : Task (option Contract) :=
  call (CallGetContract a) (Env.getContract E a).

(** [await entry_point(parameters).send().catch(error => console.log(text, error))]:
    the operation, or [undefined] after the failure was logged. *)
Definition send_or_log (c : Contract) (ep : EntryPoint) (p : Parameters)
    (text : string) : Task (option Operation) :=
  operation <- call (CallSend c ep p) (Env.send E c ep p) ;;
  match operation with
  | Some op => ret (Some op)
  | None => log text ;;; ret None
  end.

(** [validateAddress(a) === 3] guarded by the truthiness of [a]. *)
Definition isValidAddress (a : string) : bool :=
  truthy a && (Env.validateAddress E a =? 3).

(** *** Messages *)

Definition setInformationMessage (message : option string) : Task unit :=
  setState (with_informationMessage message).

Definition setConfirmationMessage (message : option string) : Task unit :=
  setState (with_confirmationMessage message).

Definition setErrorMessage (message : option string) : Task unit :=
  setState (with_errorMessage message).

(** *** Contract selection *)

Definition setContractAddress (a : string) : Task unit :=
  s <- getState ;;
  if (a =? contractAddress s)%string then ret tt
  else if negb (isValidAddress a) then
    setErrorMessage
      (Some ("The provided address is not a valid contract address: " ++ a))
  else
    addresses <- utils_getSimilarContractAddresses a ;;
    sto <- utils_getContractStorage a ;;
    bal <- utils_getBalance a ;;
    match sto with
    | None => throw (TypeError "Cannot read properties of undefined (reading 'users')")
    | Some st =>
        aliases <- utils_getUserAliases (Storage.users st) ;;
        props <- utils_getBigmapKeys (Storage.proposals st) ;;
        s1 <- getState ;;
        votes <- utils_getUserVotes (userAddress s1) (Storage.votes st) ;;
        setState (fun s =>
          with_contract None
            (with_userVotes votes
               (with_proposals props
                  (with_userAliases aliases
                     (with_balance bal
                        (with_storage (Some st)
                           (with_contractAddress a
                              (with_contractAddresses addresses s)))))))) ;;;
        storeContractAddress a
    end.

Definition getContract : Task (option Contract) :=
  s <- getState ;;
  match contract s with
  | Some c => ret (Some c)
  | None =>
      log "Accessing the multisig contract..." ;;;
      s1 <- getState ;;
      c <- utils_getContract (contractAddress s1) ;;
      setState (with_contract c) ;;;
      ret c
  end.

(** *** Wallet *)

Definition connectWallet : Task unit :=
  log "Connecting the user wallet..." ;;;
  granted <- wallet_requestPermissions ;;
  (if granted : bool then ret tt
   else log "Error while requesting wallet permissions:") ;;;
  log "Accessing the user address..." ;;;
  user <- utils_getUserAddress ;;
  setState (with_userAddress user) ;;;
  s <- getState ;;
  match storage s with
  | Some st =>
      if truthy_opt user then
        log "Downloading the user votes..." ;;;
        votes <- utils_getUserVotes user (Storage.votes st) ;;
        setState (with_userVotes votes)
      else ret tt
  | None => ret tt
  end.

Definition disconnectWallet : Task unit :=
  log "Disconnecting the user wallet..." ;;;
  wallet_clearActiveAccount ;;;
  setState (fun s => with_contract None (with_userVotes None (with_userAddress None s))).

(** *** Submission *)

Definition confirmOperation (operation : option Operation) : Task unit :=
  match operation with
  | None => ret tt
  | Some op =>
      setInformationMessage (Some "Waiting for the operation to be confirmed...") ;;;
      log "Waiting for the operation to be confirmed..." ;;;
      confirmed <- call (CallConfirmation op) (Env.confirmation E op) ;;
      (if confirmed : bool then
         log ("Operation confirmed: https://" ++ Env.NETWORK E ++ ".tzkt.io/" ++ opHash op)
       else log "Error while confirming the operation:") ;;;
      setInformationMessage None
  end.

Definition createProposal (c : Contract) (entry_point : EntryPoint)
    (parameters : Parameters) : Task unit :=
  log "Sending the create proposal operation..." ;;;
  operation <- send_or_log c entry_point parameters
                 "Error while sending the create proposal operation:" ;;
  confirmOperation operation ;;;
  s <- getState ;;
  match storage s with
  | None => throw (TypeError "Cannot read properties of undefined (reading 'proposals')")
  | Some st =>
      props <- utils_getBigmapKeys (Storage.proposals st) ;;
      setState (with_proposals props)
  end.

(** The common tail of the proposal operations: resolve the contract,
    return if there is none, otherwise start [createProposal] without
    awaiting it. *)
Definition submit (entry_point : EntryPoint) (parameters : Parameters) : Task unit :=
  c <- getContract ;;
  match c with
  | None => ret tt
  | Some c => detached (createProposal c entry_point parameters)
  end.

Definition createTextProposal (ipfsPath : option string) : Task unit :=
  match ipfsPath with
  | Some path =>
      if truthy path then
        submit text_proposal (PHex (Env.stringToHex E ("ipfs://" ++ path)))
      else
        setErrorMessage (Some "The text proposal needs to be uploaded first to IPFS")
  | None =>
      setErrorMessage (Some "The text proposal needs to be uploaded first to IPFS")
  end.

(** The loop of [createTransferMutezProposal]: the first destination that
    does not validate, or the total amount, added up as numbers from 0. *)
Fixpoint sumTransfers (transfers : list Transfer) (totalAmount : Number) : string + Number :=
  match transfers with
  | [] => inr totalAmount
  | transfer :: rest =>
      if negb (isValidAddress (destination transfer)) then inl (destination transfer)
      else sumTransfers rest (addAmount totalAmount (amount transfer))
  end.

(** [totalAmount > this.state.balance]; a comparison with [undefined] is
    false. *)
Definition exceeds (totalAmount : Number) (bal : option Z) : bool :=
  match bal, totalAmount with
  | Some b, Finite x => x >? b
  | Some _, Infinity negative => negb negative
  | None, _ => false
  end.

Definition createTransferMutezProposal (transfers : list Transfer) : Task unit :=
  match sumTransfers transfers (Finite 0) with
  | inl bad =>
      setErrorMessage
        (Some ("The provided address is not a valid tezos address: " ++ bad))
  | inr totalAmount =>
      s <- getState ;;
      if exceeds totalAmount (balance s) then
        setErrorMessage
          (Some "The total amount of tez to transfer is larger than the current contract balance")
      else submit transfer_mutez_proposal (PTransfers transfers)
  end.

(** The loop of [createTransferTokenProposal]: the first destination that
    does not validate. *)
Fixpoint firstInvalidDestination (transfers : list Transfer) : option string :=
  match transfers with
  | [] => None
  | transfer :: rest =>
      if negb (isValidAddress (destination transfer)) then Some (destination transfer)
      else firstInvalidDestination rest
  end.

Definition createTransferTokenProposal (tokenAddress : string) (tokenId : Z)
    (transfers : list Transfer) : Task unit :=
  if negb (isValidAddress tokenAddress) then
    setErrorMessage
      (Some ("The provided token contract address is not a valid tezos address: "
             ++ tokenAddress))
  else
    match firstInvalidDestination transfers with
    | Some bad =>
        setErrorMessage
          (Some ("The provided address is not a valid tezos address: " ++ bad))
    | None =>
        submit transfer_token_proposal (PTokenTransfers tokenAddress tokenId transfers)
    end.

(** [minimumVotes > this.state.storage?.users.length]; false when the
    storage is undefined. *)
Definition moreThanUsers (v : Z) (sto : option Storage.t) : bool :=
  match sto with
  | Some st => v >? Z.of_nat (List.length (Storage.users st))
  | None => false
  end.

Definition createMinimumVotesProposal (v : Z) : Task unit :=
  s <- getState ;;
  if (v <=? 0) || moreThanUsers v (storage s) then
    setErrorMessage
      (Some "The minimum votes need to be higher than 0 and less or equal to the number of multisig users")
  else submit minimum_votes_proposal (PNumber v).

Definition createExpirationTimeProposal (t : Z) : Task unit :=
  if t <=? 0 then
    setErrorMessage (Some "The expiration time needs to be at least one day")
  else submit expiration_time_proposal (PNumber t).

(** [this.state.storage?.users.includes(a)]; [undefined], hence falsy,
    when the storage is undefined. *)
Definition usersInclude (sto : option Storage.t) (a : string) : bool :=
  match sto with
  | Some st => existsb (String.eqb a) (Storage.users st)
  | None => false
  end.

Definition createAddUserProposal (a : string) : Task unit :=
  if negb (isValidAddress a) then
    setErrorMessage (Some ("The provided address is not a valid tezos address: " ++ a))
  else
    s <- getState ;;
    if usersInclude (storage s) a then
      setErrorMessage (Some "The provided address is already a multisig user")
    else submit add_user_proposal (PAddress a).

Definition createRemoveUserProposal (a : string) : Task unit :=
  if negb (isValidAddress a) then
    setErrorMessage (Some ("The provided address is not a valid tezos address: " ++ a))
  else
    s <- getState ;;
    if negb (usersInclude (storage s) a) then
      setErrorMessage (Some "The provided address is not a multisig user")
    else submit remove_user_proposal (PAddress a).

Definition createLambdaFunctionProposal (michelineCode : string) : Task unit :=
  match Env.parseMichelineExpression E michelineCode with
  | None =>
      setErrorMessage (Some "The provided lambda function Michelson code is not correct")
  | Some lambdaFunction => submit lambda_function_proposal (PLambda lambdaFunction)
  end.

(** *** Voting and execution *)

Definition voteProposal (proposalId : Z) (approval : bool) : Task unit :=
  c <- getContract ;;
  match c with
  | None => ret tt
  | Some c =>
      log "Sending the vote proposal operation..." ;;;
      operation <- send_or_log c vote_proposal (PVote proposalId approval)
                     "Error while sending the vote proposal operation:" ;;
      confirmOperation operation ;;;
      s <- getState ;;
      match storage s with
      | None => throw (TypeError "Cannot read properties of undefined (reading 'proposals')")
      | Some st =>
          props <- utils_getBigmapKeys (Storage.proposals st) ;;
          s1 <- getState ;;
          votes <- utils_getUserVotes (userAddress s1) (Storage.votes st) ;;
          setState (fun s => with_userVotes votes (with_proposals props s))
      end
  end.

Definition executeProposal (proposalId : Z) : Task unit :=
  c <- getContract ;;
  match c with
  | None => ret tt
  | Some c =>
      log "Sending the execute proposal operation..." ;;;
      operation <- send_or_log c execute_proposal (PExecute proposalId)
                     "Error while sending the execute proposal operation:" ;;
      confirmOperation operation ;;;
      s <- getState ;;
      sto <- utils_getContractStorage (contractAddress s) ;;
      s1 <- getState ;;
      bal <- utils_getBalance (contractAddress s1) ;;
      match sto with
      | None => throw (TypeError "Cannot read properties of undefined (reading 'users')")
      | Some st =>
          aliases <- utils_getUserAliases (Storage.users st) ;;
          props <- utils_getBigmapKeys (Storage.proposals st) ;;
          setState (fun s =>
            with_proposals props
              (with_userAliases aliases
                 (with_balance bal (with_storage (Some st) s))))
      end
  end.

(** *** Uploads and origination *)

(** ['ipfs://' + path], where an undefined path prints as [undefined]. *)
Definition ipfsUri (path : option string) : string :=
  match path with
  | Some p => "ipfs://" ++ p
  | None => "ipfs://undefined"
  end.

Definition uploadMetadataToIpfs (metadata : Content)
    (displayUploadInformation : bool) : Task (option string) :=
  (if displayUploadInformation then
     setInformationMessage (Some "Uploading the json metadata to ipfs...")
   else ret tt) ;;;
  log "Uploading the json metadata to ipfs..." ;;;
  added <- call (CallIpfsAdd metadata) (Env.add E metadata) ;;
  (match added with
   | Some _ => ret tt
   | None => log "Error while uploading the json metadata to ipfs:"
   end) ;;;
  (if displayUploadInformation then setInformationMessage None else ret tt) ;;;
  ret added.

Definition uploadFileToIpfs (file : option File)
    (displayUploadInformation : bool) : Task (option string) :=
  match file with
  | None =>
      setErrorMessage (Some "A file needs to be loaded before uploading to IPFS") ;;;
      ret None
  | Some f =>
      (if displayUploadInformation then
         setInformationMessage (Some ("Uploading " ++ file_name f ++ " to ipfs..."))
       else ret tt) ;;;
      log ("Uploading " ++ file_name f ++ " to ipfs...") ;;;
      added <- call (CallIpfsAdd (FileContent f)) (Env.add E (FileContent f)) ;;
      (match added with
       | Some _ => ret tt
       | None => log ("Error while uploading " ++ file_name f ++ " to ipfs:")
       end) ;;;
      (if displayUploadInformation then setInformationMessage None else ret tt) ;;;
      ret added
  end.

(** The loop of [originate] over [users]: the first user address that
    does not validate. *)
Fixpoint firstInvalidUser (us : list string) : option string :=
  match us with
  | [] => None
  | u :: rest => if negb (isValidAddress u) then Some u else firstInvalidUser rest
  end.

(** In the loop, the source calls [this.setErrorMessage], which the
    component does not define (the setter is [this.state.setErrorMessage]):
    the call raises a [TypeError]. *)
Definition originate (parameters : OriginateParameters) : Task unit :=
  match firstInvalidUser (o_users parameters) with
  | Some _ => throw (TypeError "this.setErrorMessage is not a function")
  | None =>
      if (minimumVotes parameters <=? 0)
         || (minimumVotes parameters >? Z.of_nat (List.length (o_users parameters)))
      then
        setErrorMessage
          (Some "The minimum votes need to be higher than 0 and less or equal to the number of multisig users")
      else if expirationTime parameters <=? 0 then
        setErrorMessage (Some "The expiration time needs to be at least one day")
      else
        setMetadataName (name parameters) ;;;
        metadataIpfsPath <- uploadMetadataToIpfs (MetadataJson (name parameters)) false ;;
        let initial :=
          {| og_counter := 0;
             og_expiration_time := expirationTime parameters;
             og_metadata := [("", Env.stringToHex E (ipfsUri metadataIpfsPath))];
             og_minimum_votes := minimumVotes parameters;
             og_proposals := [];
             og_users := o_users parameters;
             og_votes := [] |} in
        log "Sending the new multisig origination operation..." ;;;
        operation <- call (CallOriginate initial) (Env.originate E initial) ;;
        (match operation with
         | Some _ => ret tt
         | None => log "Error while originating the contract:"
         end) ;;;
        setInformationMessage (Some "Waiting for the operation to be confirmed...") ;;;
        log "Waiting for confirmation of origination..." ;;;
        newContractAddress <-
          match operation with
          | None => ret None
          | Some op =>
              a <- call (CallOriginationOperation op) (Env.originationOperation E op) ;;
              match a with
              | Some a => ret (Some a)
              | None => log "Error while confirming the origination operation:" ;;; ret None
              end
          end ;;
        setInformationMessage None ;;;
        log ("Origination completed for "
             ++ match newContractAddress with Some a => a | None => "undefined" end
             ++ ".")
  end.

(** *** The initial load *)

Definition loadInformation : Task unit :=
  log "Accessing the user address..." ;;;
  user <- utils_getUserAddress ;;
  log "Getting similar multisig contracts..." ;;;
  s <- getState ;;
  addresses <- utils_getSimilarContractAddresses (contractAddress s) ;;
  log "Downloading the multisig contract storage..." ;;;
  s1 <- getState ;;
  sto <- utils_getContractStorage (contractAddress s1) ;;
  log "Getting the multisig tez balance..." ;;;
  s2 <- getState ;;
  bal <- utils_getBalance (contractAddress s2) ;;
  let newState :=
    fun s => with_balance bal
               (with_storage sto
                  (with_contractAddresses addresses (with_userAddress user s))) in
  match sto with
  | Some st =>
      log "Downloading the multisig user aliases..." ;;;
      aliases <- utils_getUserAliases (Storage.users st) ;;
      log "Downloading the multisig proposals..." ;;;
      props <- utils_getBigmapKeys (Storage.proposals st) ;;
      let newState1 :=
        fun s => with_proposals props (with_userAliases aliases (newState s)) in
      if truthy_opt user then
        log "Downloading the user votes..." ;;;
        votes <- utils_getUserVotes user (Storage.votes st) ;;
        setState (fun s => with_userVotes votes (newState1 s))
      else setState newState1
  | None => setState newState
  end.

End Controller.

(** ** Rendering of the messages *)

Inductive MessageView : Type :=
| InformationMessage (message : string)
| ConfirmationMessage (message : string)
| ErrorMessage (message : string).

(** [this.state.x && <X message={this.state.x} />] for one message field. *)
Definition shown (view : string -> MessageView) (message : option string) : list MessageView :=
  match message with
  | Some text => if truthy text then [view text] else []
  | None => []
  end.

(** The message components [render] puts before the children. *)
Definition render (s : State) : list MessageView :=
  (shown InformationMessage (informationMessage s)
   ++ shown ConfirmationMessage (confirmationMessage s)
   ++ shown ErrorMessage (errorMessage s))%list.

(** ** Running the controller *)

(** The machine when the component is constructed. *)
Definition initialMachine (stored : option string) (DEFAULT_CONTRACT_ADDRESS : string)
    (account : option string) : Machine :=
  {| state := initialState stored DEFAULT_CONTRACT_ADDRESS;
     multisigContractAddress := stored;
     activeAccount := account;
     metadataName := None;
     calls := [];
     console := [];
     published := [] |}.

(** The operations that resolve the contract reference before invoking an
    entry point: the eight proposal creations, the vote and the execution. *)
Inductive Intent : Type :=
| TextProposal (ipfsPath : option string)
| TransferMutezProposal (transfers : list Transfer)
| TransferTokenProposal (tokenAddress : string) (tokenId : Z) (transfers : list Transfer)
| MinimumVotesProposal (v : Z)
| ExpirationTimeProposal (t : Z)
| AddUserProposal (a : string)
| RemoveUserProposal (a : string)
| LambdaFunctionProposal (michelineCode : string)
| VoteProposal (proposalId : Z) (approval : bool)
| ExecuteProposal (proposalId : Z).

Definition perform (E : Env.t) (i : Intent) : Task unit :=
  match i with
  | TextProposal p => createTextProposal E p
  | TransferMutezProposal ts => createTransferMutezProposal E ts
  | TransferTokenProposal a id ts => createTransferTokenProposal E a id ts
  | MinimumVotesProposal v => createMinimumVotesProposal E v
  | ExpirationTimeProposal t => createExpirationTimeProposal E t
  | AddUserProposal a => createAddUserProposal E a
  | RemoveUserProposal a => createRemoveUserProposal E a
  | LambdaFunctionProposal code => createLambdaFunctionProposal E code
  | VoteProposal id approval => voteProposal E id approval
  | ExecuteProposal id => executeProposal E id
  end.

(** Whether a call invokes a contract entry point. *)
Definition isSend (c : Call) : bool :=
  match c with
  | CallSend _ _ _ => true
  | _ => false
  end.

(** ** Notions used by the statements *)

(** The summed amounts of a mutez-transfer payload. *)
Definition totalAmount (transfers : list Transfer) : Z :=
  fold_right (fun transfer acc => amount transfer + acc) 0 transfers.

(** The summed magnitudes of the amounts of a payload. *)
Definition totalMagnitude (transfers : list Transfer) : Z :=
  fold_right (fun transfer acc => Z.abs (amount transfer) + acc) 0 transfers.

(** The running total of the loop of [createTransferMutezProposal] over a
    payload, from a starting total. *)
Definition runningTotal (transfers : list Transfer) (start : Number) : Number :=
  fold_left (fun total transfer => addAmount total (amount transfer)) transfers start.

(** Every destination of the payload validates. *)
Definition destinationsValid (E : Env.t) (transfers : list Transfer) : bool :=
  forallb (fun transfer => isValidAddress E (destination transfer)) transfers.


(** The contract reference an operation works with: the cached one, or the
    one [utils.getContract] answers. *)
Definition resolved (E : Env.t) (s : State) : option Contract :=
  match contract s with
  | Some c => Some c
  | None => Env.getContract E (contractAddress s)
  end.

(** ** Every operation of the controller, and runs of them *)

(** What a user, through the components, can ask of the controller: the
    three message setters, the operations of the context and the initial
    load done when the component mounts. *)
Inductive Action : Type :=
| SetInformationMessage (message : option string)
| SetConfirmationMessage (message : option string)
| SetErrorMessage (message : option string)
| SetContractAddress (a : string)
| ConnectWallet
| DisconnectWallet
| Perform (i : Intent)
| Originate (parameters : OriginateParameters)
| UploadMetadataToIpfs (metadata : Content) (displayUploadInformation : bool)
| UploadFileToIpfs (file : option File) (displayUploadInformation : bool)
| LoadInformation.

(** Running a task for its effects only. *)
Definition discard {A : Type} (t : Task A) : Task unit :=
  fun m => (match fst (t m) with Normal _ => Normal tt | Abrupt e => Abrupt e end, snd (t m)).

Definition act (E : Env.t) (a : Action) : Task unit :=
  match a with
  | SetInformationMessage message => setInformationMessage message
  | SetConfirmationMessage message => setConfirmationMessage message
  | SetErrorMessage message => setErrorMessage message
  | SetContractAddress a => setContractAddress E a
  | ConnectWallet => connectWallet E
  | DisconnectWallet => disconnectWallet
  | Perform i => perform E i
  | Originate parameters => originate E parameters
  | UploadMetadataToIpfs metadata display => discard (uploadMetadataToIpfs E metadata display)
  | UploadFileToIpfs file display => discard (uploadFileToIpfs E file display)
  | LoadInformation => loadInformation E
  end.

(** A run: one action after the other, each with the answers its
    collaborators give at that time; an action that throws leaves the
    machine as it was when it threw and the next one goes on from there. *)
Fixpoint run (steps : list (Env.t * Action)) (m : Machine) : Machine :=
  match steps with
  | [] => m
  | (E, a) :: rest => run rest (snd (act E a m))
  end.

(** The task [t] leaves the observation [f] of the machine as it was. *)
Definition preserves {A B : Type} (f : Machine -> B) (t : Task A) : Prop :=
  forall m, f (snd (t m)) = f m.

(** An observation of the state, the persisted address and the wallet
    account; the record of calls, the console and the published snapshots
    are not observed. *)
Definition observe {B : Type} (g : State -> option string -> option string -> B)
    (m : Machine) : B :=
  g (state m) (multisigContractAddress m) (activeAccount m).

(** The intents that create a proposal: all but the vote and the
    execution. *)
Definition createsProposal (i : Intent) : bool :=
  match i with
  | VoteProposal _ _ | ExecuteProposal _ => false
  | _ => true
  end.

(** The selection is the one a reload would make: the persisted address,
    or the default when none is persisted. *)
Definition selectionPersisted (DEFAULT_CONTRACT_ADDRESS : string) (m : Machine) : Prop :=
  contractAddress (state m) = or_default (multisigContractAddress m) DEFAULT_CONTRACT_ADDRESS.

(** ** The header and the parameters view *)

(** What [Wallet] of containers/header.js renders: the link to the user
    address when there is one, then the one button, [unsync] bound to
    [disconnectWallet] or [sync] bound to [connectWallet]. *)
Inductive Element : Type :=
| TezosAddressLink (address : string)
| Button (text : string) (onClick : Action).

Definition Wallet (s : State) : list Element :=
  ((match userAddress s with
    | Some a => if truthy a then [TezosAddressLink a] else []
    | None => []
    end)
   ++ [if truthy_opt (userAddress s) then Button "unsync" DisconnectWallet
       else Button "sync" ConnectWallet])%list.

(** [user === userAddress], the user address being possibly undefined. *)
Definition isUser (user : string) (connected : option string) : bool :=
  match connected with
  | Some a => (user =? a)%string
  | None => false
  end.

(** The users list of [Parameters] (containers/parameters.js): one entry
    per user of the storage, in order, carrying the address and whether it
    gets the [is-user] class; no entry while the storage is undefined. *)
Definition usersList (s : State) : list (string * bool) :=
  match storage s with
  | Some st => map (fun user => (user, isUser user (userAddress s))) (Storage.users st)
  | None => []
  end.

(** ** A sample chain

    Two generations of one multisig, a wallet account and three users, for
    evaluating the operations. *)
Module Sample.

Definition multisig : string := "KT1Multisig".
Definition otherMultisig : string := "KT1Other".
Definition alice : string := "tz1Alice".
Definition bob : string := "tz1Bob".
Definition carol : string := "tz1Carol".

(** [validateAddress]: 3 (valid) on the known addresses, 0 (no prefix
    matched) elsewhere. *)
Definition validateAddress (a : string) : Z :=
  if existsb (String.eqb a) [multisig; otherMultisig; alice; bob; carol]
  then 3 else 0.

Definition storage1 : Storage.t :=
  Storage.mk [alice; bob; carol] 2 7 10 11.

(** After an execution that removed [carol]. *)
Definition storage2 : Storage.t :=
  Storage.mk [alice; bob] 2 7 10 11.

(** The chain at generation [g] (1 or 2); [sends] and [confirms] tell
    whether operations are accepted and confirmed, [permission] what the
    wallet grants, [found] whether the contract reference resolves. *)
Definition chain (g : Z) (permission : option string) (found sends confirms : bool)
    : Env.t :=
  {| Env.NETWORK := "mainnet";
     Env.validateAddress := validateAddress;
     Env.parseMichelineExpression := fun code => if truthy code then Some code else None;
     Env.stringToHex := fun s => s;
     Env.getSimilarContractAddresses := fun _ => Some [multisig; otherMultisig];
     Env.getContractStorage := fun _ => Some (if g =? 1 then storage1 else storage2);
     Env.getBalance := fun _ => Some (if g =? 1 then 5000000 else 4000000);
     Env.getUserAliases := fun us => Some (map (fun u => (u, "alias")) us);
     Env.getBigmapKeys := fun _ =>
       Some (if g =? 1 then [(0, "p0")] else [(0, "p0"); (1, "p1")]);
     Env.getUserVotes := fun user _ =>
       match user with
       | Some _ => Some (if g =? 1 then [(0, true)] else [(0, true); (1, false)])
       | None => None
       end;
     Env.getContract := fun a => if found then Some (ContractAt a) else None;
     Env.requestPermissions := permission;
     Env.send := fun _ _ _ => if sends then Some (mkOperation "op1") else None;
     Env.confirmation := fun _ => confirms;
     Env.add := fun _ => Some "Qm1";
     Env.originate := fun _ => if sends then Some (mkOperation "op2") else None;
     Env.originationOperation := fun _ => if confirms then Some otherMultisig else None |}.

(** The component after its initial load at generation 1, [alice] being
    the wallet's active account. *)
Definition loaded : Machine :=
  Eval vm_compute in
    snd (loadInformation (chain 1 None true true true)
           (initialMachine None multisig (Some alice))).

(** The same without a wallet account. *)
Definition loadedAnonymous : Machine :=
  Eval vm_compute in
    snd (loadInformation (chain 1 None true true true)
           (initialMachine None multisig None)).

End Sample.

(** A chain layer that answers nothing but the balance, while the wallet
    still sends: for the operations whose storage fetch fails. *)
Definition storageUnavailable : Env.t :=
  {| Env.NETWORK := "mainnet";
     Env.validateAddress := Sample.validateAddress;
     Env.parseMichelineExpression := fun _ => None;
     Env.stringToHex := fun s => s;
     Env.getSimilarContractAddresses := fun _ => None;
     Env.getContractStorage := fun _ => None;
     Env.getBalance := fun _ => Some 1;
     Env.getUserAliases := fun _ => None;
     Env.getBigmapKeys := fun _ => None;
     Env.getUserVotes := fun _ _ => None;
     Env.getContract := fun a => Some (ContractAt a);
     Env.requestPermissions := None;
     Env.send := fun _ _ _ => Some (mkOperation "op9");
     Env.confirmation := fun _ => true;
     Env.add := fun _ => None;
     Env.originate := fun _ => None;
     Env.originationOperation := fun _ => None |}.

(** ** Elementary facts *)

(** The sample machines are the outcome of the initial load. *)
Lemma loaded_is_initial_load :
  Sample.loaded
  = snd (loadInformation (Sample.chain 1 None true true true)
           (initialMachine None Sample.multisig (Some Sample.alice))) /\
  Sample.loadedAnonymous
  = snd (loadInformation (Sample.chain 1 None true true true)
           (initialMachine None Sample.multisig None)).
Proof. split; vm_compute; reflexivity. Qed.


Lemma with_contract_same (s : State) : contract s = None -> with_contract None s = s.
Proof. destruct s; simpl; intros ->; reflexivity. Qed.

Lemma with_userAddress_same (s : State) :
  userAddress s = None -> with_userAddress None s = s.
Proof. destruct s; simpl; intros ->; reflexivity. Qed.

(** The common tail when the contract reference does not resolve: one
    [utils.getContract] call, one log line, the state republished as it
    was, and a normal return. *)
Lemma submit_without_contract (E : Env.t) (ep : EntryPoint) (p : Parameters) (m : Machine) :
  contract (state m) = None ->
  Env.getContract E (contractAddress (state m)) = None ->
  submit E ep p m =
    (Normal tt,
     mkMachine (state m) (multisigContractAddress m) (activeAccount m) (metadataName m)
       (calls m ++ [CallGetContract (contractAddress (state m))])
       (console m ++ ["Accessing the multisig contract..."])
       (published m ++ [state m])).
Proof.
  intros Hc Hg.
  unfold submit, getContract, bind, getState, utils_getContract, call, log, setState, ret.
  simpl. rewrite Hc. simpl. rewrite Hg. simpl.
  rewrite (with_contract_same _ Hc). reflexivity.
Qed.

(** Resolving the contract reference when none is cached and the chain
    layer yields none. *)
Lemma getContract_without_contract (E : Env.t) (m : Machine) :
  contract (state m) = None ->
  Env.getContract E (contractAddress (state m)) = None ->
  getContract E m =
    (Normal None,
     mkMachine (state m) (multisigContractAddress m) (activeAccount m) (metadataName m)
       (calls m ++ [CallGetContract (contractAddress (state m))])
       (console m ++ ["Accessing the multisig contract..."])
       (published m ++ [state m])).
Proof.
  intros Hc Hg.
  unfold getContract, bind, getState, utils_getContract, call, log, setState, ret.
  simpl. rewrite Hc. simpl. rewrite Hg. simpl.
  rewrite (with_contract_same _ Hc). reflexivity.
Qed.

(** A list is not itself with elements appended. *)
Lemma app_cons_neq {A : Type} (l : list A) (x : A) (r : list A) :
  (l ++ x :: r)%list <> l.
Proof.
  intros H. apply (f_equal (@List.length A)) in H.
  rewrite length_app in H. simpl in H. lia.
Qed.

(** Reading the state and going on. *)
Lemma bind_getState {A : Type} (k : State -> Task A) (m : Machine) :
  (s <- getState ;; k s) m = k (state m) m.
Proof. reflexivity. Qed.

(** Running a sequence: the first task, then the rest unless it threw. *)
Lemma bind_run {A B : Type} (t : Task A) (k : A -> Task B) (m : Machine) :
  bind t k m =
    match t m with
    | (Normal a, m') => k a m'
    | (Abrupt e, m') => (Abrupt e, m')
    end.
Proof. reflexivity. Qed.

(** Setting the error message calls no collaborator. *)
Lemma setErrorMessage_run (message : option string) (m : Machine) :
  setErrorMessage message m =
    (Normal tt,
     mkMachine (with_errorMessage message (state m)) (multisigContractAddress m)
       (activeAccount m) (metadataName m) (calls m) (console m)
       (published m ++ [with_errorMessage message (state m)])).
Proof. reflexivity. Qed.

(** What [createProposal] does to the record of calls and to the messages:
    the first call is the [send] of the entry point, and the error and
    confirmation messages are as before. *)
Lemma createProposal_effect (E : Env.t) (c : Contract) (ep : EntryPoint)
    (p : Parameters) (m : Machine) :
  exists cs,
    calls (snd (createProposal E c ep p m)) = (calls m ++ CallSend c ep p :: cs)%list /\
    errorMessage (state (snd (createProposal E c ep p m))) = errorMessage (state m) /\
    confirmationMessage (state (snd (createProposal E c ep p m)))
      = confirmationMessage (state m) /\
    storage (state (snd (createProposal E c ep p m))) = storage (state m).
Proof.
  unfold createProposal, send_or_log, confirmOperation, setInformationMessage,
    utils_getBigmapKeys, bind, getState, call, log, setState, ret, throw.
  simpl.
  destruct (Env.send E c ep p) as [op|]; simpl.
  - destruct (Env.confirmation E op); simpl;
      destruct (storage (state m)) as [st|] eqn:Hst; simpl;
      rewrite <- ?app_assoc; simpl; eexists; repeat split; auto.
  - destruct (storage (state m)) as [st|] eqn:Hst; simpl;
      rewrite <- ?app_assoc; simpl; eexists; repeat split; auto.
Qed.

(** Once validation has passed, the chain is contacted: the first call is
    the resolution of the contract reference or, when the reference is
    cached, the [send] of the entry point; the error message is not
    touched. *)
Lemma submit_effect (E : Env.t) (ep : EntryPoint) (p : Parameters) (m : Machine) :
  fst (submit E ep p m) = Normal tt /\
  errorMessage (state (snd (submit E ep p m))) = errorMessage (state m) /\
  exists c cs,
    calls (snd (submit E ep p m)) = (calls m ++ c :: cs)%list /\
    (c = CallGetContract (contractAddress (state m)) \/
     exists k, contract (state m) = Some k /\ c = CallSend k ep p).
Proof.
  unfold submit, getContract, bind, getState, utils_getContract, call, log,
    setState, ret, detached.
  simpl.
  destruct (contract (state m)) as [k|] eqn:Hk; simpl.
  - destruct (createProposal_effect E k ep p m) as (cs & Hc & He & _).
    split; [reflexivity|]. split; [exact He|].
    exists (CallSend k ep p), cs. split; [exact Hc|]. right. exists k. auto.
  - destruct (Env.getContract E (contractAddress (state m))) as [k|]; simpl.
    + set (m1 := mkMachine _ _ _ _ _ _ _).
      destruct (createProposal_effect E k ep p m1) as (cs & Hc & He & _).
      split; [reflexivity|]. split; [rewrite He; reflexivity|].
      exists (CallGetContract (contractAddress (state m))), (CallSend k ep p :: cs).
      split; [|left; reflexivity].
      rewrite Hc. unfold m1. simpl. rewrite <- app_assoc. reflexivity.
    + split; [reflexivity|]. split; [reflexivity|].
      exists (CallGetContract (contractAddress (state m))), [].
      split; [reflexivity|left; reflexivity].
Qed.

Lemma submit_calls (E : Env.t) (ep : EntryPoint) (p : Parameters) (m : Machine) :
  calls (snd (submit E ep p m)) <> calls m.
Proof.
  destruct (submit_effect E ep p m) as (_ & _ & c & cs & Hc & _).
  rewrite Hc. apply app_cons_neq.
Qed.

(** ** The claims *)

(** C7. Selecting the contract that is already selected does nothing:
    [setContractAddress] returns at once, with no collaborator call, no
    [setState] (so no snapshot is published and the state object is the
    same), no write to the local storage; hence it is idempotent. *)
Theorem setContractAddress_current_selection (E : Env.t) (m : Machine) :
  setContractAddress E (contractAddress (state m)) m = (Normal tt, m).
Proof.
  unfold setContractAddress, bind, getState, ret. simpl.
  rewrite String.eqb_refl. reflexivity.
Qed.

(** C10. When no contract reference is cached and resolving it yields
    none, each of the eight proposal creations, the vote and the execution
    that got as far as resolving it (that is, made a collaborator call)
    returns normally after that single [utils.getContract] call: no entry
    point is invoked, and the state, with its three messages, is what it
    was; the one snapshot published in between is that same state. *)
Theorem unresolved_contract_returns_silently (E : Env.t) (i : Intent) (m : Machine) :
  contract (state m) = None ->
  Env.getContract E (contractAddress (state m)) = None ->
  calls (snd (perform E i m)) <> calls m ->
  fst (perform E i m) = Normal tt /\
  state (snd (perform E i m)) = state m /\
  calls (snd (perform E i m)) = (calls m ++ [CallGetContract (contractAddress (state m))])%list /\
  existsb isSend (calls (snd (perform E i m))) = existsb isSend (calls m) /\
  published (snd (perform E i m)) = (published m ++ [state m])%list.
Proof.
  intros Hc Hg.
  assert (Hs : forall ep p,
             calls (snd (submit E ep p m)) <> calls m ->
             fst (submit E ep p m) = Normal tt /\
             state (snd (submit E ep p m)) = state m /\
             calls (snd (submit E ep p m))
               = (calls m ++ [CallGetContract (contractAddress (state m))])%list /\
             existsb isSend (calls (snd (submit E ep p m))) = existsb isSend (calls m) /\
             published (snd (submit E ep p m)) = (published m ++ [state m])%list).
  { intros ep p _. rewrite (submit_without_contract E ep p m Hc Hg). simpl.
    rewrite existsb_app. simpl. rewrite !orb_false_r. auto. }
  destruct i; simpl.
  - unfold createTextProposal. destruct ipfsPath as [path|]; [destruct (truthy path)|];
      try apply Hs; rewrite setErrorMessage_run; simpl; congruence.
  - unfold createTransferMutezProposal.
    destruct (sumTransfers E transfers (Finite 0)) as [bad|total].
    + rewrite setErrorMessage_run; simpl; congruence.
    + rewrite !bind_getState.
      destruct (exceeds total (balance (state m))); try apply Hs.
      rewrite setErrorMessage_run; simpl; congruence.
  - unfold createTransferTokenProposal.
    destruct (negb (isValidAddress E tokenAddress)).
    + rewrite setErrorMessage_run; simpl; congruence.
    + destruct (firstInvalidDestination E transfers); try apply Hs.
      rewrite setErrorMessage_run; simpl; congruence.
  - unfold createMinimumVotesProposal. rewrite !bind_getState.
    destruct ((v <=? 0) || moreThanUsers v (storage (state m))); try apply Hs.
    rewrite setErrorMessage_run; simpl; congruence.
  - unfold createExpirationTimeProposal. destruct (t <=? 0); try apply Hs.
    rewrite setErrorMessage_run; simpl; congruence.
  - unfold createAddUserProposal. destruct (negb (isValidAddress E a)).
    + rewrite setErrorMessage_run; simpl; congruence.
    + rewrite !bind_getState.
      destruct (usersInclude (storage (state m)) a); try apply Hs.
      rewrite setErrorMessage_run; simpl; congruence.
  - unfold createRemoveUserProposal. destruct (negb (isValidAddress E a)).
    + rewrite setErrorMessage_run; simpl; congruence.
    + rewrite !bind_getState.
      destruct (negb (usersInclude (storage (state m)) a)); try apply Hs.
      rewrite setErrorMessage_run; simpl; congruence.
  - unfold createLambdaFunctionProposal.
    destruct (Env.parseMichelineExpression E michelineCode); try apply Hs.
    rewrite setErrorMessage_run; simpl; congruence.
  - intros _. unfold voteProposal.
    rewrite bind_run, (getContract_without_contract E m Hc Hg). simpl.
    rewrite existsb_app. simpl. rewrite !orb_false_r. auto.
  - intros _. unfold executeProposal.
    rewrite bind_run, (getContract_without_contract E m Hc Hg). simpl.
    rewrite existsb_app. simpl. rewrite !orb_false_r. auto.
Qed.

Lemma unresolved_contract_returns_silently_witness :
  let E := Sample.chain 1 None false true true in
  let r := perform E (VoteProposal 0 true) Sample.loaded in
  fst r = Normal tt /\
  state (snd r) = state Sample.loaded /\
  calls (snd r) = (calls Sample.loaded ++ [CallGetContract Sample.multisig])%list.
Proof.
  destruct (unresolved_contract_returns_silently
              (Sample.chain 1 None false true true) (VoteProposal 0 true) Sample.loaded)
    as (H1 & H2 & H3 & _).
  - reflexivity.
  - reflexivity.
  - vm_compute. discriminate.
  - split; [exact H1|]. split; [exact H2|exact H3].
Defined.

(** C9. While the storage is not loaded, the checks that read it let
    everything through: [createMinimumVotesProposal] accepts every value
    above 0, however large, and [createAddUserProposal] every address that
    validates. Both go on to the common tail, which contacts the chain (its
    first call resolves the contract reference or, with a cached reference,
    sends the entry point) and sets no error message. *)
Theorem unloaded_storage_checks_pass (E : Env.t) (m : Machine) :
  storage (state m) = None ->
  (forall v : Z, 0 < v ->
     createMinimumVotesProposal E v m = submit E minimum_votes_proposal (PNumber v) m /\
     errorMessage (state (snd (createMinimumVotesProposal E v m))) = errorMessage (state m) /\
     exists c cs,
       calls (snd (createMinimumVotesProposal E v m)) = (calls m ++ c :: cs)%list /\
       (c = CallGetContract (contractAddress (state m)) \/
        exists k, contract (state m) = Some k /\
                  c = CallSend k minimum_votes_proposal (PNumber v))) /\
  (forall a : string, isValidAddress E a = true ->
     createAddUserProposal E a m = submit E add_user_proposal (PAddress a) m /\
     errorMessage (state (snd (createAddUserProposal E a m))) = errorMessage (state m) /\
     exists c cs,
       calls (snd (createAddUserProposal E a m)) = (calls m ++ c :: cs)%list /\
       (c = CallGetContract (contractAddress (state m)) \/
        exists k, contract (state m) = Some k /\
                  c = CallSend k add_user_proposal (PAddress a))).
Proof.
  intros Hst. split.
  - intros v Hv.
    assert (Heq : createMinimumVotesProposal E v m
                  = submit E minimum_votes_proposal (PNumber v) m).
    { unfold createMinimumVotesProposal. rewrite bind_getState, Hst. simpl.
      destruct (Z.leb_spec v 0); [lia|]. reflexivity. }
    rewrite Heq. split; [reflexivity|].
    destruct (submit_effect E minimum_votes_proposal (PNumber v) m) as (_ & He & Hc).
    split; assumption.
  - intros a Ha.
    assert (Heq : createAddUserProposal E a m = submit E add_user_proposal (PAddress a) m).
    { unfold createAddUserProposal. rewrite Ha. simpl.
      rewrite bind_getState, Hst. reflexivity. }
    rewrite Heq. split; [reflexivity|].
    destruct (submit_effect E add_user_proposal (PAddress a) m) as (_ & He & Hc).
    split; assumption.
Qed.

Lemma unloaded_storage_checks_pass_witness :
  let E := Sample.chain 1 None true true true in
  let m := initialMachine None Sample.multisig None in
  storage (state m) = None /\
  createMinimumVotesProposal E 1000000 m
    = submit E minimum_votes_proposal (PNumber 1000000) m /\
  createAddUserProposal E Sample.alice m
    = submit E add_user_proposal (PAddress Sample.alice) m.
Proof.
  pose proof (unloaded_storage_checks_pass (Sample.chain 1 None true true true)
                (initialMachine None Sample.multisig None) eq_refl) as [Hv Ha].
  split; [reflexivity|]. split.
  - apply (Hv 1000000). lia.
  - apply (Ha Sample.alice). reflexivity.
Defined.

(** C6. With the storage loaded, [createMinimumVotesProposal v] passes its
    validation exactly when [0 < v <= number of users]: then, and only
    then, it goes on to the common tail and a collaborator is called. On a
    violation it returns after setting the error message that states the
    bound; no collaborator is called and the proposals, like every field
    but the error message, are unchanged. *)
Theorem minimum_votes_validation (E : Env.t) (v : Z) (m : Machine) (st : Storage.t) :
  storage (state m) = Some st ->
  (calls (snd (createMinimumVotesProposal E v m)) <> calls m
   <-> 0 < v <= Z.of_nat (List.length (Storage.users st))) /\
  (0 < v <= Z.of_nat (List.length (Storage.users st)) ->
   createMinimumVotesProposal E v m = submit E minimum_votes_proposal (PNumber v) m) /\
  (~ 0 < v <= Z.of_nat (List.length (Storage.users st)) ->
   fst (createMinimumVotesProposal E v m) = Normal tt /\
   state (snd (createMinimumVotesProposal E v m))
     = with_errorMessage
         (Some "The minimum votes need to be higher than 0 and less or equal to the number of multisig users")
         (state m) /\
   calls (snd (createMinimumVotesProposal E v m)) = calls m /\
   proposals (state (snd (createMinimumVotesProposal E v m))) = proposals (state m)).
Proof.
  intros Hst.
  assert (Hpass : 0 < v <= Z.of_nat (List.length (Storage.users st)) ->
                  createMinimumVotesProposal E v m
                  = submit E minimum_votes_proposal (PNumber v) m).
  { intros [H0 Hn]. unfold createMinimumVotesProposal.
    rewrite bind_getState, Hst. simpl.
    destruct (Z.leb_spec v 0); [lia|].
    destruct (Z.gtb_spec v (Z.of_nat (List.length (Storage.users st)))); [lia|].
    reflexivity. }
  assert (Hfail : ~ 0 < v <= Z.of_nat (List.length (Storage.users st)) ->
                  createMinimumVotesProposal E v m
                  = setErrorMessage
                      (Some "The minimum votes need to be higher than 0 and less or equal to the number of multisig users")
                      m).
  { intros Hn. unfold createMinimumVotesProposal.
    rewrite bind_getState, Hst. simpl.
    destruct (Z.leb_spec v 0); [reflexivity|].
    destruct (Z.gtb_spec v (Z.of_nat (List.length (Storage.users st)))); [reflexivity|lia]. }
  split; [|split].
  - split.
    + intros Hc.
      destruct (Z_lt_dec 0 v) as [H0|H0];
        [destruct (Z_le_dec v (Z.of_nat (List.length (Storage.users st)))) as [H1|H1]|];
        try (split; assumption);
        exfalso; apply Hc; rewrite Hfail by lia; reflexivity.
    + intros Hr. rewrite (Hpass Hr). apply submit_calls.
  - exact Hpass.
  - intros Hn. rewrite (Hfail Hn). rewrite setErrorMessage_run. simpl.
    repeat split; reflexivity.
Qed.

Lemma minimum_votes_validation_witness :
  let E := Sample.chain 1 None true true true in
  storage (state Sample.loaded) = Some Sample.storage1 /\
  (calls (snd (createMinimumVotesProposal E 0 Sample.loaded)) <> calls Sample.loaded
   <-> 0 < 0 <= 3) /\
  errorMessage (state (snd (createMinimumVotesProposal E 0 Sample.loaded)))
    = Some "The minimum votes need to be higher than 0 and less or equal to the number of multisig users".
Proof.
  pose proof (minimum_votes_validation (Sample.chain 1 None true true true) 0
                Sample.loaded Sample.storage1 eq_refl) as (Hiff & _ & Hfail).
  split; [reflexivity|]. split; [exact Hiff|].
  destruct Hfail as (_ & Hs & _); [simpl; lia|].
  rewrite Hs. reflexivity.
Defined.

(** The rounding of integers to doubles on some values: the ties at
    [2^53 + 1] and [10^16 + 1] go to the even neighbour, [2^53 + 3] goes up,
    and the overflow threshold is half a step below [2^1024]. *)
Lemma toNumber_examples :
  toNumber (2 ^ 53 + 1) = Finite (2 ^ 53) /\
  toNumber (2 ^ 53 + 2) = Finite (2 ^ 53 + 2) /\
  toNumber (2 ^ 53 + 3) = Finite (2 ^ 53 + 4) /\
  toNumber (10 ^ 16 + 1) = Finite (10 ^ 16) /\
  toNumber (- (2 ^ 53 + 1)) = Finite (- 2 ^ 53) /\
  toNumber (2 ^ 1024 - 2 ^ 970 - 1) = Finite (2 ^ 1024 - 2 ^ 971) /\
  toNumber (2 ^ 1024 - 2 ^ 970) = Infinity false.
Proof. vm_compute. repeat split; reflexivity. Qed.

(** An integer of magnitude at most [2^53] is a double. *)
Lemma toNumber_exact (z : Z) : Z.abs z <= 2 ^ 53 -> toNumber z = Finite z.
Proof.
  intros H. unfold toNumber. cbv zeta.
  destruct (Z.leb_spec (Z.abs z) (2 ^ 53)); [reflexivity|lia].
Qed.

(** The running total is the exact sum as long as the magnitudes of the
    start and of the amounts add up to at most [2^53]. *)
Lemma runningTotal_exact (transfers : list Transfer) (x : Z) :
  Z.abs x + totalMagnitude transfers <= 2 ^ 53 ->
  runningTotal transfers (Finite x) = Finite (x + totalAmount transfers).
Proof.
  revert x. induction transfers as [|t rest IH]; intros x H; simpl in *.
  - f_equal. lia.
  - assert (Hrest : 0 <= totalMagnitude rest).
    { clear. induction rest as [|u rest IH]; simpl; lia. }
    rewrite toNumber_exact by lia.
    rewrite IH by lia. f_equal. lia.
Qed.

(** The loop of [createTransferMutezProposal] stops at the first
    destination that does not validate, and otherwise yields the running
    total of the amounts. *)
Lemma sumTransfers_spec (E : Env.t) (transfers : list Transfer) (acc : Number) :
  (destinationsValid E transfers = true /\
   sumTransfers E transfers acc = inr (runningTotal transfers acc)) \/
  (exists bad,
     In bad (map destination transfers) /\ isValidAddress E bad = false /\
     sumTransfers E transfers acc = inl bad).
Proof.
  revert acc. induction transfers as [|t rest IH]; intros acc; simpl.
  - left. split; reflexivity.
  - destruct (isValidAddress E (destination t)) eqn:Hv; simpl.
    + destruct (IH (addAmount acc (amount t))) as [[Hall Hsum]|(bad & Hin & Hbad & Hsum)].
      * left. split; [exact Hall|exact Hsum].
      * right. exists bad. auto.
    + right. exists (destination t). auto.
Qed.

(** C5, as stated, fails. The amounts are added as doubles: with a
    balance of [2^53] and the amounts [2^53] and 1, whose sum exceeds the
    balance, the running total is [2^53] again, which does not exceed the
    balance, and the proposal is sent; likewise with a balance of 0 and the
    amounts [10^16], 1 and [-10^16], whose sum is 1. *)
Lemma rounded_total_passes_balance_check :
  let E := Sample.chain 1 None true true true in
  let held (b : Z) :=
    mkMachine (with_balance (Some b) (state Sample.loaded)) None (Some Sample.alice)
      None [] [] [] in
  let big := [mkTransfer Sample.bob (2 ^ 53); mkTransfer Sample.carol 1] in
  let cancel :=
    [mkTransfer Sample.bob (10 ^ 16); mkTransfer Sample.carol 1;
     mkTransfer Sample.bob (- 10 ^ 16)] in
  totalAmount big = 2 ^ 53 + 1 /\
  balance (state (held (2 ^ 53))) = Some (2 ^ 53) /\
  createTransferMutezProposal E big (held (2 ^ 53))
    = submit E transfer_mutez_proposal (PTransfers big) (held (2 ^ 53)) /\
  existsb isSend (calls (snd (createTransferMutezProposal E big (held (2 ^ 53))))) = true /\
  errorMessage (state (snd (createTransferMutezProposal E big (held (2 ^ 53))))) = None /\
  totalAmount cancel = 1 /\
  createTransferMutezProposal E cancel (held 0)
    = submit E transfer_mutez_proposal (PTransfers cancel) (held 0) /\
  existsb isSend (calls (snd (createTransferMutezProposal E cancel (held 0)))) = true.
Proof.
  vm_compute. repeat split; reflexivity.
Qed.

(** C5, amended. For a payload whose amounts are integers with magnitudes
    adding up to at most [2^53], so that the running total of the code is
    their exact sum, and a balance [b] held in the snapshot: if the sum
    exceeds [b] the operation returns after setting an error message (the
    balance message or, when a destination does not validate, the address
    message), no collaborator is called, hence no contract call is made,
    and the balance field is still [b]; if the destinations validate and
    the sum is at most [b], the payload passes the check and goes on to the
    common tail. *)
Theorem mutez_transfer_balance_check (E : Env.t) (transfers : list Transfer)
    (m : Machine) (b : Z) :
  totalMagnitude transfers <= 2 ^ 53 ->
  balance (state m) = Some b ->
  (b < totalAmount transfers ->
   exists message,
     createTransferMutezProposal E transfers m = setErrorMessage (Some message) m /\
     (message = "The total amount of tez to transfer is larger than the current contract balance"
      \/ exists bad,
           In bad (map destination transfers) /\ isValidAddress E bad = false /\
           message = "The provided address is not a valid tezos address: " ++ bad) /\
     fst (createTransferMutezProposal E transfers m) = Normal tt /\
     errorMessage (state (snd (createTransferMutezProposal E transfers m))) = Some message /\
     calls (snd (createTransferMutezProposal E transfers m)) = calls m /\
     balance (state (snd (createTransferMutezProposal E transfers m))) = Some b) /\
  (totalAmount transfers <= b ->
   destinationsValid E transfers = true ->
   createTransferMutezProposal E transfers m
     = submit E transfer_mutez_proposal (PTransfers transfers) m).
Proof.
  intros Hsafe Hb.
  assert (Htotal : runningTotal transfers (Finite 0) = Finite (totalAmount transfers)).
  { rewrite runningTotal_exact by (simpl; lia). reflexivity. }
  unfold createTransferMutezProposal. split.
  - intros Hgt.
    destruct (sumTransfers_spec E transfers (Finite 0))
      as [[_ Hsum]|(bad & Hin & Hbad & Hsum)]; rewrite Hsum.
    + rewrite Htotal, bind_getState, Hb. cbn [exceeds].
      destruct (Z.gtb_spec (totalAmount transfers) b); [|lia].
      eexists. split; [reflexivity|]. split; [left; reflexivity|].
      rewrite setErrorMessage_run. simpl. auto.
    + eexists. split; [reflexivity|]. split; [right; exists bad; auto|].
      rewrite setErrorMessage_run. simpl. auto.
  - intros Hle Hall.
    destruct (sumTransfers_spec E transfers (Finite 0))
      as [[_ Hsum]|(bad & Hin & Hbad & Hsum)].
    + rewrite Hsum, Htotal, bind_getState, Hb. cbn [exceeds].
      destruct (Z.gtb_spec (totalAmount transfers) b); [lia|]. reflexivity.
    + exfalso. unfold destinationsValid in Hall. rewrite forallb_forall in Hall.
      apply in_map_iff in Hin. destruct Hin as (t & <- & Hin).
      rewrite (Hall t Hin) in Hbad. discriminate.
Qed.

Lemma mutez_transfer_balance_check_witness :
  let E := Sample.chain 1 None true true true in
  let big := [mkTransfer Sample.bob 3000000; mkTransfer Sample.carol 2000001] in
  let ok := [mkTransfer Sample.bob 3000000; mkTransfer Sample.carol 2000000] in
  totalMagnitude big <= 2 ^ 53 /\
  balance (state Sample.loaded) = Some 5000000 /\
  (exists message,
     createTransferMutezProposal E big Sample.loaded
       = setErrorMessage (Some message) Sample.loaded) /\
  createTransferMutezProposal E ok Sample.loaded
    = submit E transfer_mutez_proposal (PTransfers ok) Sample.loaded.
Proof.
  intros E big ok.
  assert (Hbig : totalMagnitude big <= 2 ^ 53) by (vm_compute; discriminate).
  assert (Hok : totalMagnitude ok <= 2 ^ 53) by (vm_compute; discriminate).
  split; [exact Hbig|]. split; [reflexivity|]. split.
  - destruct (mutez_transfer_balance_check E big Sample.loaded 5000000 Hbig eq_refl)
      as [Hreject _].
    destruct Hreject as (message & Heq & _); [vm_compute; reflexivity|].
    exists message. exact Heq.
  - destruct (mutez_transfer_balance_check E ok Sample.loaded 5000000 Hok eq_refl)
      as [_ Hpass].
    apply Hpass; [vm_compute; discriminate|reflexivity].
Defined.

(** C8, as stated, fails. After the caught rejection the identity is read
    from the wallet all the same: with a wallet that still holds an active
    account (here before the initial load has set the identity), the
    rejected request ends with that account as the identity. *)
Lemma rejected_permission_sets_wallet_account :
  let E := Sample.chain 1 None true true true in
  let m := initialMachine None Sample.multisig (Some Sample.alice) in
  Env.requestPermissions E = None /\
  userAddress (state m) = None /\
  userAddress (state (snd (connectWallet E m))) = Some Sample.alice.
Proof.
  vm_compute. repeat split; reflexivity.
Qed.

(** C8, amended. When the wallet rejects the permission request,
    [connectWallet] only logs the rejection and returns normally: no message
    is set and the storage, the balance and the proposals are what they
    were. The identity becomes the account the wallet reports as active: it
    remains absent, the whole state being unchanged, when no identity was
    connected and the wallet holds no active account; an account the wallet
    still holds becomes the identity despite the rejection. *)
Theorem connectWallet_rejection_is_only_logged (E : Env.t) (m : Machine) :
  Env.requestPermissions E = None ->
  fst (connectWallet E m) = Normal tt /\
  userAddress (state (snd (connectWallet E m))) = activeAccount m /\
  informationMessage (state (snd (connectWallet E m))) = informationMessage (state m) /\
  confirmationMessage (state (snd (connectWallet E m))) = confirmationMessage (state m) /\
  errorMessage (state (snd (connectWallet E m))) = errorMessage (state m) /\
  storage (state (snd (connectWallet E m))) = storage (state m) /\
  balance (state (snd (connectWallet E m))) = balance (state m) /\
  proposals (state (snd (connectWallet E m))) = proposals (state m) /\
  (exists rest,
     console (snd (connectWallet E m))
       = (console m ++ "Connecting the user wallet..."
                       :: "Error while requesting wallet permissions:"
                       :: "Accessing the user address..." :: rest)%list) /\
  (activeAccount m = None -> userAddress (state m) = None ->
   state (snd (connectWallet E m)) = state m /\
   userAddress (state (snd (connectWallet E m))) = None /\
   calls (snd (connectWallet E m))
     = (calls m ++ [CallRequestPermissions; CallGetUserAddress])%list).
Proof.
  destruct m as [s stored account name cs out pub]. intros Hp.
  unfold connectWallet, wallet_requestPermissions, utils_getUserAddress,
    utils_getUserVotes, bind, log, call, setState, getState, ret.
  cbn [state multisigContractAddress activeAccount metadataName calls console published].
  rewrite Hp.
  cbn [state multisigContractAddress activeAccount metadataName calls console published
       fst snd].
  destruct account as [a|]; [destruct (truthy a) eqn:Ha|]; cbn [truthy_opt];
    rewrite ?Ha; simpl; destruct (storage s) as [st|] eqn:Hst; simpl;
    rewrite <- ?app_assoc; simpl;
    (repeat split; try reflexivity; try assumption;
     try (eexists; reflexivity); try discriminate;
     apply with_userAddress_same; assumption).
Qed.

Lemma connectWallet_rejection_is_only_logged_witness :
  let E := Sample.chain 1 None true true true in
  Env.requestPermissions E = None /\
  state (snd (connectWallet E Sample.loadedAnonymous)) = state Sample.loadedAnonymous /\
  errorMessage (state (snd (connectWallet E Sample.loaded))) = None /\
  storage (state (snd (connectWallet E Sample.loaded))) = Some Sample.storage1.
Proof.
  intros E. split; [reflexivity|].
  destruct (connectWallet_rejection_is_only_logged E Sample.loadedAnonymous eq_refl)
    as (_ & _ & _ & _ & _ & _ & _ & _ & _ & Hsame).
  destruct (connectWallet_rejection_is_only_logged E Sample.loaded eq_refl)
    as (_ & _ & _ & _ & He & Hs & _).
  destruct Hsame as (Hstate & _); [reflexivity|reflexivity|].
  split; [exact Hstate|]. split; [rewrite He; reflexivity|rewrite Hs; reflexivity].
Defined.

(** C2, as stated, fails. At generation 2 of the sample chain the wallet
    refuses to send a text proposal (first run), or sends it and the
    confirmation wait fails (second run): in both runs no error message is
    set, nothing is rendered, and the proposals are replaced by the keys
    fetched anew, which differ from the ones held before. *)
Lemma failed_submission_sets_no_error :
  let refused := Sample.chain 2 None true false true in
  let unconfirmed := Sample.chain 2 None true true false in
  let r1 := createTextProposal refused (Some "QmText") Sample.loaded in
  let r2 := createTextProposal unconfirmed (Some "QmText") Sample.loaded in
  Env.send refused (ContractAt Sample.multisig) text_proposal (PHex "ipfs://QmText") = None /\
  Env.confirmation unconfirmed (mkOperation "op1") = false /\
  errorMessage (state (snd r1)) = None /\
  errorMessage (state (snd r2)) = None /\
  render (state (snd r1)) = [] /\
  render (state (snd r2)) = [] /\
  proposals (state (snd r1)) <> proposals (state Sample.loaded) /\
  proposals (state (snd r2)) <> proposals (state Sample.loaded).
Proof.
  vm_compute. repeat split; discriminate.
Qed.

(** C2, amended. When the send of a proposal's entry point fails, or the
    confirmation wait after it, [createProposal] only logs the failure and
    returns normally. It sets no error message: the error and confirmation
    messages are what they were, the information message is untouched after
    a failed send and is set, then cleared, around a failed confirmation
    wait. The storage field is unchanged; the keys of [storage.proposals]
    are fetched again all the same and replace the proposals field. *)
Theorem failed_submission_is_only_logged (E : Env.t) (c : Contract) (ep : EntryPoint)
    (p : Parameters) (m : Machine) (st : Storage.t) :
  storage (state m) = Some st ->
  (Env.send E c ep p = None ->
   createProposal E c ep p m =
     (Normal tt,
      mkMachine
        (with_proposals (Env.getBigmapKeys E (Storage.proposals st)) (state m))
        (multisigContractAddress m) (activeAccount m) (metadataName m)
        (calls m ++ [CallSend c ep p; CallGetBigmapKeys (Storage.proposals st)])
        (console m ++ ["Sending the create proposal operation...";
                       "Error while sending the create proposal operation:"])
        (published m
         ++ [with_proposals (Env.getBigmapKeys E (Storage.proposals st)) (state m)])))
  /\
  (forall op, Env.send E c ep p = Some op -> Env.confirmation E op = false ->
   createProposal E c ep p m =
     (Normal tt,
      mkMachine
        (with_proposals (Env.getBigmapKeys E (Storage.proposals st))
           (with_informationMessage None (state m)))
        (multisigContractAddress m) (activeAccount m) (metadataName m)
        (calls m ++ [CallSend c ep p; CallConfirmation op;
                     CallGetBigmapKeys (Storage.proposals st)])
        (console m ++ ["Sending the create proposal operation...";
                       "Waiting for the operation to be confirmed...";
                       "Error while confirming the operation:"])
        (published m
         ++ [with_informationMessage
               (Some "Waiting for the operation to be confirmed...") (state m);
             with_informationMessage None (state m);
             with_proposals (Env.getBigmapKeys E (Storage.proposals st))
               (with_informationMessage None (state m))])))
  /\
  ((Env.send E c ep p = None \/
    exists op, Env.send E c ep p = Some op /\ Env.confirmation E op = false) ->
   errorMessage (state (snd (createProposal E c ep p m))) = errorMessage (state m) /\
   confirmationMessage (state (snd (createProposal E c ep p m)))
     = confirmationMessage (state m) /\
   storage (state (snd (createProposal E c ep p m))) = storage (state m) /\
   proposals (state (snd (createProposal E c ep p m)))
     = Env.getBigmapKeys E (Storage.proposals st)).
Proof.
  intros Hst.
  assert (Hsend : Env.send E c ep p = None ->
                  createProposal E c ep p m =
                    (Normal tt,
                     mkMachine
                       (with_proposals (Env.getBigmapKeys E (Storage.proposals st)) (state m))
                       (multisigContractAddress m) (activeAccount m) (metadataName m)
                       (calls m ++ [CallSend c ep p; CallGetBigmapKeys (Storage.proposals st)])
                       (console m ++ ["Sending the create proposal operation...";
                                      "Error while sending the create proposal operation:"])
                       (published m
                        ++ [with_proposals (Env.getBigmapKeys E (Storage.proposals st))
                              (state m)]))).
  { intros Hs.
    unfold createProposal, send_or_log, confirmOperation, utils_getBigmapKeys, bind,
      getState, call, log, setState, ret.
    simpl. rewrite Hs. simpl. rewrite Hst. simpl.
    rewrite <- !app_assoc. reflexivity. }
  assert (Hconf : forall op, Env.send E c ep p = Some op -> Env.confirmation E op = false ->
                  createProposal E c ep p m =
                    (Normal tt,
                     mkMachine
                       (with_proposals (Env.getBigmapKeys E (Storage.proposals st))
                          (with_informationMessage None (state m)))
                       (multisigContractAddress m) (activeAccount m) (metadataName m)
                       (calls m ++ [CallSend c ep p; CallConfirmation op;
                                    CallGetBigmapKeys (Storage.proposals st)])
                       (console m ++ ["Sending the create proposal operation...";
                                      "Waiting for the operation to be confirmed...";
                                      "Error while confirming the operation:"])
                       (published m
                        ++ [with_informationMessage
                              (Some "Waiting for the operation to be confirmed...") (state m);
                            with_informationMessage None (state m);
                            with_proposals (Env.getBigmapKeys E (Storage.proposals st))
                              (with_informationMessage None (state m))]))).
  { intros op Hs Hc.
    unfold createProposal, send_or_log, confirmOperation, setInformationMessage,
      utils_getBigmapKeys, bind, getState, call, log, setState, ret.
    simpl. rewrite Hs. simpl. rewrite Hc. simpl. rewrite Hst. simpl.
    rewrite <- !app_assoc. reflexivity. }
  split; [exact Hsend|]. split; [exact Hconf|].
  intros [Hs|(op & Hs & Hc)].
  - rewrite (Hsend Hs). simpl. auto.
  - rewrite (Hconf op Hs Hc). simpl. auto.
Qed.

Lemma failed_submission_is_only_logged_witness :
  let E := Sample.chain 2 None true false true in
  let c := ContractAt Sample.multisig in
  let r := createProposal E c text_proposal (PHex "ipfs://QmText") Sample.loaded in
  storage (state Sample.loaded) = Some Sample.storage1 /\
  Env.send E c text_proposal (PHex "ipfs://QmText") = None /\
  errorMessage (state (snd r)) = errorMessage (state Sample.loaded) /\
  storage (state (snd r)) = storage (state Sample.loaded) /\
  proposals (state (snd r)) = Some [(0, "p0"); (1, "p1")].
Proof.
  intros E c r. split; [reflexivity|]. split; [reflexivity|].
  destruct (failed_submission_is_only_logged E c text_proposal (PHex "ipfs://QmText")
              Sample.loaded Sample.storage1 eq_refl) as (_ & _ & H).
  destruct H as (He & _ & Hs & Hp); [left; reflexivity|].
  split; [exact He|]. split; [exact Hs|exact Hp].
Defined.








(** C4, as stated, fails. From the loaded component, a minimum-votes
    proposal of 0 sets the error message; a vote follows. While the vote
    awaits its confirmation, the published snapshot holds the information
    message and the error message at once and [render] shows both; when the
    vote is over the error message is still there: the information message
    did not overwrite it. *)
Lemma two_messages_at_once :
  let E := Sample.chain 1 None true true true in
  let m1 := snd (createMinimumVotesProposal E 0 Sample.loaded) in
  let m2 := snd (voteProposal E 0 true m1) in
  (exists s,
     In s (published m2) /\
     informationMessage s = Some "Waiting for the operation to be confirmed..." /\
     errorMessage s
       = Some "The minimum votes need to be higher than 0 and less or equal to the number of multisig users" /\
     render s
       = [InformationMessage "Waiting for the operation to be confirmed...";
          ErrorMessage "The minimum votes need to be higher than 0 and less or equal to the number of multisig users"]) /\
  errorMessage (state m2) = errorMessage (state m1) /\
  errorMessage (state m2) <> None.
Proof.
  intros E m1 m2. split.
  - eexists. split.
    + vm_compute. do 3 right. left. reflexivity.
    + vm_compute. repeat split; reflexivity.
  - split; [vm_compute; reflexivity|]. vm_compute. discriminate.
Qed.

(** A message field is shown exactly when it holds a non-empty text. *)
Lemma shown_iff (view : string -> MessageView) (message : option string) (v : MessageView) :
  In v (shown view message) <->
  exists text, message = Some text /\ truthy text = true /\ v = view text.
Proof.
  unfold shown. destruct message as [text|]; [destruct (truthy text) eqn:Ht|]; simpl.
  - split.
    + intros [<-|[]]. exists text. auto.
    + intros (t & Heq & _ & ->). injection Heq as ->. auto.
  - split; [intros []|]. intros (t & Heq & Htt & _).
    injection Heq as ->. rewrite Htt in Ht. discriminate.
  - split; [intros []|]. intros (t & Heq & _). discriminate.
Qed.

(** C4, amended. The state holds three independent message fields, one
    per kind, each a text or absent. A setter overwrites the field of its
    own kind, the new message replacing the former one of that kind, and
    leaves the two other kinds as they were; so messages of several kinds
    can be present at once. [render] shows a kind exactly when its own field
    holds a non-empty text, whatever the other fields hold, hence at most
    three messages. *)
Theorem messages_are_independent_fields (message : option string) (m : Machine) :
  (informationMessage (state (snd (setInformationMessage message m))) = message /\
   confirmationMessage (state (snd (setInformationMessage message m)))
     = confirmationMessage (state m) /\
   errorMessage (state (snd (setInformationMessage message m))) = errorMessage (state m)) /\
  (confirmationMessage (state (snd (setConfirmationMessage message m))) = message /\
   informationMessage (state (snd (setConfirmationMessage message m)))
     = informationMessage (state m) /\
   errorMessage (state (snd (setConfirmationMessage message m))) = errorMessage (state m)) /\
  (errorMessage (state (snd (setErrorMessage message m))) = message /\
   informationMessage (state (snd (setErrorMessage message m)))
     = informationMessage (state m) /\
   confirmationMessage (state (snd (setErrorMessage message m)))
     = confirmationMessage (state m)) /\
  (forall text,
     (In (InformationMessage text) (render (state m))
      <-> informationMessage (state m) = Some text /\ truthy text = true) /\
     (In (ConfirmationMessage text) (render (state m))
      <-> confirmationMessage (state m) = Some text /\ truthy text = true) /\
     (In (ErrorMessage text) (render (state m))
      <-> errorMessage (state m) = Some text /\ truthy text = true)) /\
  (List.length (render (state m)) <= 3)%nat.
Proof.
  split; [simpl; auto|]. split; [simpl; auto|]. split; [simpl; auto|]. split.
  - intros text. unfold render.
    split; [|split]; rewrite !in_app_iff, !shown_iff; split.
    + intros [H|[H|H]]; destruct H as (t & Hm & Ht & Hv);
        try discriminate; injection Hv as ->; auto.
    + intros [Hm Ht]. left. exists text. auto.
    + intros [H|[H|H]]; destruct H as (t & Hm & Ht & Hv);
        try discriminate; injection Hv as ->; auto.
    + intros [Hm Ht]. right. left. exists text. auto.
    + intros [H|[H|H]]; destruct H as (t & Hm & Ht & Hv);
        try discriminate; injection Hv as ->; auto.
    + intros [Hm Ht]. right. right. exists text. auto.
  - unfold render, shown. rewrite !length_app.
    destruct (informationMessage (state m)) as [a|]; [destruct (truthy a)|];
      (destruct (confirmationMessage (state m)) as [b|]; [destruct (truthy b)|]);
      (destruct (errorMessage (state m)) as [c|]; [destruct (truthy c)|]);
      simpl; lia.
Qed.

(** The addresses of a user list that do not validate make the loop of
    [originate] stop. *)
Lemma firstInvalidUser_found (E : Env.t) (us : list string) (a : string) :
  In a us -> isValidAddress E a = false -> firstInvalidUser E us <> None.
Proof.
  induction us as [|u rest IH]; simpl; [intros []|].
  intros [->|Hin] Ha.
  - rewrite Ha. simpl. discriminate.
  - destruct (isValidAddress E u); simpl; [auto|discriminate].
Qed.

(** C1, at [originate]. A user list that holds an address failing the
    validation makes [originate] raise a [TypeError] (the call of the
    undefined [this.setErrorMessage]): the machine is as it was, so no
    error message is set, though no collaborator is called either. *)
Theorem originate_invalid_user_raises (E : Env.t) (parameters : OriginateParameters)
    (m : Machine) (a : string) :
  In a (o_users parameters) ->
  isValidAddress E a = false ->
  originate E parameters m
    = (Abrupt (TypeError "this.setErrorMessage is not a function"), m).
Proof.
  intros Hin Ha. unfold originate.
  destruct (firstInvalidUser E (o_users parameters)) eqn:Hf.
  - reflexivity.
  - exfalso. exact (firstInvalidUser_found E _ a Hin Ha Hf).
Qed.

Lemma originate_invalid_user_raises_witness :
  let E := Sample.chain 1 None true true true in
  let parameters :=
    mkOriginateParameters "dao" [Sample.alice; "tz1oops"; Sample.carol] 2 7 in
  isValidAddress E "tz1oops" = false /\
  fst (originate E parameters Sample.loaded)
    = Abrupt (TypeError "this.setErrorMessage is not a function") /\
  errorMessage (state (snd (originate E parameters Sample.loaded))) = None /\
  calls (snd (originate E parameters Sample.loaded)) = calls Sample.loaded.
Proof.
  intros E parameters. split; [reflexivity|].
  rewrite (originate_invalid_user_raises E parameters Sample.loaded "tz1oops").
  - repeat split; reflexivity.
  - simpl. right. left. reflexivity.
  - reflexivity.
Defined.

(** The sibling operations do what [originate] misses: an address that
    fails the validation is turned into an error message, and no
    collaborator is called. *)
Lemma invalid_address_sets_error (E : Env.t) (a : string) (m : Machine) :
  isValidAddress E a = false ->
  ((a =? contractAddress (state m))%string = false ->
   setContractAddress E a m
     = setErrorMessage
         (Some ("The provided address is not a valid contract address: " ++ a)) m) /\
  createAddUserProposal E a m
    = setErrorMessage (Some ("The provided address is not a valid tezos address: " ++ a)) m /\
  createRemoveUserProposal E a m
    = setErrorMessage (Some ("The provided address is not a valid tezos address: " ++ a)) m /\
  (forall tokenId transfers,
     createTransferTokenProposal E a tokenId transfers m
       = setErrorMessage
           (Some ("The provided token contract address is not a valid tezos address: " ++ a))
           m) /\
  (forall transfers,
     In a (map destination transfers) ->
     exists bad,
       isValidAddress E bad = false /\ In bad (map destination transfers) /\
       createTransferMutezProposal E transfers m
         = setErrorMessage
             (Some ("The provided address is not a valid tezos address: " ++ bad)) m) /\
  (forall message, calls (snd (setErrorMessage message m)) = calls m).
Proof.
  intros Ha. repeat split.
  - intros Hne. unfold setContractAddress. rewrite bind_getState, Hne, Ha. reflexivity.
  - unfold createAddUserProposal. rewrite Ha. reflexivity.
  - unfold createRemoveUserProposal. rewrite Ha. reflexivity.
  - intros tokenId transfers. unfold createTransferTokenProposal. rewrite Ha. reflexivity.
  - intros transfers Hin. unfold createTransferMutezProposal.
    destruct (sumTransfers_spec E transfers (Finite 0))
      as [[Hall _]|(bad & Hb & Hbad & Hsum)].
    + exfalso. unfold destinationsValid in Hall. rewrite forallb_forall in Hall.
      apply in_map_iff in Hin. destruct Hin as (t & <- & Hin).
      rewrite (Hall t Hin) in Ha. discriminate.
    + exists bad. rewrite Hsum. auto.
Qed.

(** ** What the operations leave alone *)

(** Returning, throwing and reading the state change nothing. *)
Lemma preserves_ret {A B : Type} (f : Machine -> B) (a : A) : preserves f (ret a).
Proof. intros m. reflexivity. Qed.

Lemma preserves_throw {A B : Type} (f : Machine -> B) (e : Exception) :
  preserves f (@throw A e).
Proof. intros m. reflexivity. Qed.

Lemma preserves_getState {B : Type} (f : Machine -> B) : preserves f getState.
Proof. intros m. reflexivity. Qed.

Lemma preserves_bind {A B C : Type} (f : Machine -> C) (t : Task A) (k : A -> Task B) :
  preserves f t -> (forall a, preserves f (k a)) -> preserves f (bind t k).
Proof.
  intros Ht Hk m. unfold bind. specialize (Ht m).
  destruct (t m) as [[a|e] m1]; simpl in *.
  - rewrite (Hk a m1). exact Ht.
  - exact Ht.
Qed.

Lemma preserves_detached {B : Type} (f : Machine -> B) (t : Task unit) :
  preserves f t -> preserves f (detached t).
Proof. intros Ht m. exact (Ht m). Qed.

Lemma preserves_discard {A B : Type} (f : Machine -> B) (t : Task A) :
  preserves f t -> preserves f (discard t).
Proof. intros Ht m. exact (Ht m). Qed.

Lemma preserves_log {B : Type} (g : State -> option string -> option string -> B)
    (line : string) : preserves (observe g) (log line).
Proof. intros m. reflexivity. Qed.

Lemma preserves_call {A B : Type} (g : State -> option string -> option string -> B)
    (c : Call) (answer : A) : preserves (observe g) (call c answer).
Proof. intros m. reflexivity. Qed.

Lemma preserves_setMetadataName {B : Type}
    (g : State -> option string -> option string -> B) (n : string) :
  preserves (observe g) (setMetadataName n).
Proof. intros m. reflexivity. Qed.

Lemma preserves_getUserAddress {B : Type}
    (g : State -> option string -> option string -> B) :
  preserves (observe g) utils_getUserAddress.
Proof. intros m. reflexivity. Qed.

Lemma preserves_setState {B : Type} (g : State -> option string -> option string -> B)
    (patch : State -> State) :
  (forall s l w, g (patch s) l w = g s l w) -> preserves (observe g) (setState patch).
Proof. intros H m. unfold observe. simpl. apply H. Qed.

Lemma preserves_storeContractAddress {B : Type}
    (g : State -> option string -> option string -> B) (a : string) :
  (forall s l w, g s (Some a) w = g s l w) ->
  preserves (observe g) (storeContractAddress a).
Proof. intros H m. unfold observe. simpl. apply H. Qed.

Lemma preserves_requestPermissions {B : Type}
    (g : State -> option string -> option string -> B) (E : Env.t) :
  (forall s l w w', g s l w' = g s l w) ->
  preserves (observe g) (wallet_requestPermissions E).
Proof.
  intros H m. unfold observe, wallet_requestPermissions.
  destruct (Env.requestPermissions E); simpl; [apply H|reflexivity].
Qed.

Lemma preserves_clearActiveAccount {B : Type}
    (g : State -> option string -> option string -> B) :
  (forall s l w w', g s l w' = g s l w) ->
  preserves (observe g) wallet_clearActiveAccount.
Proof. intros H m. unfold observe. simpl. apply H. Qed.

(** Going through an operation, one task at a time. *)
Ltac frame_step :=
  lazymatch goal with
  | |- preserves _ (bind _ _) => apply preserves_bind; [|intro]
  | |- preserves _ (ret _) => apply preserves_ret
  | |- preserves _ (throw _) => apply preserves_throw
  | |- preserves _ getState => apply preserves_getState
  | |- preserves _ (log _) => apply preserves_log
  | |- preserves _ (call _ _) => apply preserves_call
  | |- preserves _ (setMetadataName _) => apply preserves_setMetadataName
  | |- preserves _ utils_getUserAddress => apply preserves_getUserAddress
  | |- preserves _ (detached _) => apply preserves_detached
  | |- preserves _ (discard _) => apply preserves_discard
  | |- preserves _ (setState _) => apply preserves_setState; intros; reflexivity
  | |- preserves _ (storeContractAddress _) =>
      apply preserves_storeContractAddress; intros; reflexivity
  | |- preserves _ (wallet_requestPermissions _) =>
      apply preserves_requestPermissions; intros; reflexivity
  | |- preserves _ wallet_clearActiveAccount =>
      apply preserves_clearActiveAccount; intros; reflexivity
  | |- preserves _ (match ?x with _ => _ end) => destruct x
  end.

Ltac frame :=
  unfold createTextProposal, createTransferMutezProposal, createTransferTokenProposal,
    createMinimumVotesProposal, createExpirationTimeProposal, createAddUserProposal,
    createRemoveUserProposal, createLambdaFunctionProposal, voteProposal,
    executeProposal, originate, uploadMetadataToIpfs, uploadFileToIpfs,
    loadInformation, connectWallet, disconnectWallet, submit, createProposal,
    getContract, confirmOperation, send_or_log, setInformationMessage,
    setConfirmationMessage, setErrorMessage, utils_getSimilarContractAddresses,
    utils_getContractStorage, utils_getBalance, utils_getUserAliases,
    utils_getBigmapKeys, utils_getUserVotes, utils_getContract;
  repeat frame_step.

(** Running an operation on a machine given by its fields. *)
Ltac run_all :=
  cbv [createTextProposal createTransferMutezProposal createTransferTokenProposal
    createMinimumVotesProposal createExpirationTimeProposal createAddUserProposal
    createRemoveUserProposal createLambdaFunctionProposal voteProposal
    executeProposal originate uploadMetadataToIpfs uploadFileToIpfs
    loadInformation connectWallet disconnectWallet setContractAddress submit
    createProposal detached discard
    getContract confirmOperation send_or_log setInformationMessage
    setConfirmationMessage setErrorMessage
    utils_getSimilarContractAddresses utils_getContractStorage utils_getBalance
    utils_getUserAliases utils_getBigmapKeys utils_getUserVotes utils_getContract
    utils_getUserAddress wallet_requestPermissions wallet_clearActiveAccount
    storeContractAddress setMetadataName getMetadataName
    bind getState call log setState ret throw
    state multisigContractAddress activeAccount metadataName calls console
    published fst snd].

(** Every proposal creation, vote and execution leaves the identity, the
    contract selection with its list of similar contracts, the confirmation
    message, the persisted address and the wallet account as they were. *)
Lemma perform_frame (E : Env.t) (i : Intent) :
  preserves
    (observe (fun s l w =>
       (userAddress s, contractAddresses s, contractAddress s, confirmationMessage s, l, w)))
    (perform E i).
Proof. destruct i; unfold perform; frame. Qed.

(** A proposal creation, besides, leaves the storage, the balance, the
    aliases and the vote slice. *)
Lemma creation_frame (E : Env.t) (i : Intent) :
  createsProposal i = true ->
  preserves
    (observe (fun s (_ _ : option string) =>
       (storage s, balance s, userAliases s, userVotes s)))
    (perform E i).
Proof. destruct i; simpl; intros H; try discriminate; unfold perform; frame. Qed.

(** A vote and an execution never touch the error message; the common tail
    of the creations does not either. *)
Lemma vote_execute_keep_error (E : Env.t) :
  (forall proposalId approval,
     preserves (observe (fun s (_ _ : option string) => errorMessage s))
       (voteProposal E proposalId approval)) /\
  (forall proposalId,
     preserves (observe (fun s (_ _ : option string) => errorMessage s))
       (executeProposal E proposalId)).
Proof. split; intros; frame. Qed.

(** Every action but the selection of a contract leaves the selection and
    the persisted address as they were. *)
Lemma act_frame (E : Env.t) (a : Action) :
  match a with
  | SetContractAddress _ => True
  | _ => preserves (observe (fun s l (_ : option string) => (contractAddress s, l))) (act E a)
  end.
Proof. destruct a; try exact I; unfold act, perform; frame. Qed.

(** ** Selecting a contract *)

(** The outcome of a selection that passes the validation and fetches the
    storage. *)
Lemma setContractAddress_selected (E : Env.t) (a : string) (m : Machine) (st : Storage.t) :
  (a =? contractAddress (state m))%string = false ->
  isValidAddress E a = true ->
  Env.getContractStorage E a = Some st ->
  let s' :=
    mkState (userAddress (state m)) (Env.getSimilarContractAddresses E a) a (Some st)
      (Env.getBalance E a) (Env.getUserAliases E (Storage.users st))
      (Env.getBigmapKeys E (Storage.proposals st))
      (Env.getUserVotes E (userAddress (state m)) (Storage.votes st)) None
      (informationMessage (state m)) (confirmationMessage (state m))
      (errorMessage (state m)) in
  setContractAddress E a m =
    (Normal tt,
     mkMachine s' (Some a) (activeAccount m) (metadataName m)
       (calls m ++ [CallGetSimilarContractAddresses a; CallGetContractStorage a;
                    CallGetBalance a; CallGetUserAliases (Storage.users st);
                    CallGetBigmapKeys (Storage.proposals st);
                    CallGetUserVotes (userAddress (state m)) (Storage.votes st)])
       (console m) (published m ++ [s'])).
Proof.
  destruct m as [s stored account name cs out pub]. intros Hne Hv Hst. simpl in Hne.
  run_all. rewrite Hne, Hv, Hst. cbn [negb]. simpl.
  rewrite <- !app_assoc. reflexivity.
Qed.

(** The outcome of a selection whose storage fetch yields nothing. *)
Lemma setContractAddress_without_storage (E : Env.t) (a : string) (m : Machine) :
  (a =? contractAddress (state m))%string = false ->
  isValidAddress E a = true ->
  Env.getContractStorage E a = None ->
  setContractAddress E a m =
    (Abrupt (TypeError "Cannot read properties of undefined (reading 'users')"),
     mkMachine (state m) (multisigContractAddress m) (activeAccount m) (metadataName m)
       (calls m ++ [CallGetSimilarContractAddresses a; CallGetContractStorage a;
                    CallGetBalance a])
       (console m) (published m)).
Proof.
  destruct m as [s stored account name cs out pub]. intros Hne Hv Hst. simpl in Hne.
  run_all. rewrite Hne, Hv, Hst. cbn [negb]. simpl.
  rewrite <- !app_assoc. reflexivity.
Qed.

(** Whatever the address, a selection either keeps the selection and the
    persisted address, or makes a valid address both. *)
Lemma setContractAddress_cases (E : Env.t) (a : string) (m : Machine) :
  (contractAddress (state (snd (setContractAddress E a m))) = contractAddress (state m) /\
   multisigContractAddress (snd (setContractAddress E a m)) = multisigContractAddress m) \/
  (isValidAddress E a = true /\
   contractAddress (state (snd (setContractAddress E a m))) = a /\
   multisigContractAddress (snd (setContractAddress E a m)) = Some a).
Proof.
  destruct ((a =? contractAddress (state m))%string) eqn:Hne.
  - left. unfold setContractAddress. rewrite bind_getState, Hne. simpl. auto.
  - destruct (isValidAddress E a) eqn:Hv.
    + destruct (Env.getContractStorage E a) as [st|] eqn:Hst.
      * right. rewrite (setContractAddress_selected E a m st Hne Hv Hst). simpl. auto.
      * left. rewrite (setContractAddress_without_storage E a m Hne Hv Hst). simpl. auto.
    + left. unfold setContractAddress. rewrite bind_getState, Hne, Hv. simpl. auto.
Qed.

(** An address that validates is not empty. *)
Lemma valid_is_truthy (E : Env.t) (a : string) : isValidAddress E a = true -> truthy a = true.
Proof. unfold isValidAddress. intros H. apply andb_true_iff in H. tauto. Qed.

(** One action either keeps the selection and the persisted address or
    makes one valid address both. *)
Lemma act_selection (E : Env.t) (a : Action) (m : Machine) :
  (contractAddress (state (snd (act E a m))) = contractAddress (state m) /\
   multisigContractAddress (snd (act E a m)) = multisigContractAddress m) \/
  (exists x, isValidAddress E x = true /\
             contractAddress (state (snd (act E a m))) = x /\
             multisigContractAddress (snd (act E a m)) = Some x).
Proof.
  pose proof (act_frame E a) as H.
  destruct a as [msg|msg|msg|x| | |i|p|c b|f b|];
    try (left; pose proof (H m) as Hm; unfold observe in Hm; split; congruence).
  simpl. destruct (setContractAddress_cases E x m) as [Hk|Hs]; [left; exact Hk|].
  right. exists x. exact Hs.
Qed.

(** Selecting a contract, when the address is new, validates and its
    storage is fetched: the address becomes the selection and is persisted,
    so that a component constructed afterwards starts with it; the cached
    contract reference is dropped; the identity and the three messages are
    kept; exactly one snapshot is published, the final one; and selecting
    the same address again, whatever the chain answers then, does nothing. *)
Theorem selection_is_persisted (E E' : Env.t) (a : string) (m : Machine)
    (st : Storage.t) (DEFAULT_CONTRACT_ADDRESS : string) :
  (a =? contractAddress (state m))%string = false ->
  isValidAddress E a = true ->
  Env.getContractStorage E a = Some st ->
  let m' := snd (setContractAddress E a m) in
  multisigContractAddress m' = Some a /\
  contractAddress (initialState (multisigContractAddress m') DEFAULT_CONTRACT_ADDRESS) = a /\
  contract (state m') = None /\
  userAddress (state m') = userAddress (state m) /\
  informationMessage (state m') = informationMessage (state m) /\
  confirmationMessage (state m') = confirmationMessage (state m) /\
  errorMessage (state m') = errorMessage (state m) /\
  published m' = (published m ++ [state m'])%list /\
  setContractAddress E' a m' = (Normal tt, m').
Proof.
  intros Hne Hv Hst m'. subst m'.
  rewrite (setContractAddress_selected E a m st Hne Hv Hst). simpl.
  rewrite (valid_is_truthy E a Hv).
  repeat split.
  unfold setContractAddress. rewrite bind_getState. simpl.
  rewrite String.eqb_refl. reflexivity.
Qed.

Lemma selection_is_persisted_witness :
  let E := Sample.chain 2 None true true true in
  let m' := snd (setContractAddress E Sample.otherMultisig Sample.loaded) in
  multisigContractAddress m' = Some Sample.otherMultisig /\
  contractAddress (initialState (multisigContractAddress m') Sample.multisig)
    = Sample.otherMultisig /\
  setContractAddress E Sample.otherMultisig m' = (Normal tt, m').
Proof.
  intros E m'.
  destruct (selection_is_persisted E E Sample.otherMultisig Sample.loaded Sample.storage2
              Sample.multisig) as (H1 & H2 & _ & _ & _ & _ & _ & _ & H9);
    try (vm_compute; reflexivity).
  split; [exact H1|]. split; [exact H2|exact H9].
Defined.

(** Selecting a contract whose storage cannot be fetched raises a
    [TypeError] after three queries (similar contracts, storage, balance)
    and changes nothing: the state and so the selection are what they were,
    nothing is published and nothing is persisted. *)
Theorem selection_without_storage_changes_nothing (E : Env.t) (a : string) (m : Machine) :
  (a =? contractAddress (state m))%string = false ->
  isValidAddress E a = true ->
  Env.getContractStorage E a = None ->
  fst (setContractAddress E a m)
    = Abrupt (TypeError "Cannot read properties of undefined (reading 'users')") /\
  state (snd (setContractAddress E a m)) = state m /\
  multisigContractAddress (snd (setContractAddress E a m)) = multisigContractAddress m /\
  published (snd (setContractAddress E a m)) = published m /\
  calls (snd (setContractAddress E a m))
    = (calls m ++ [CallGetSimilarContractAddresses a; CallGetContractStorage a;
                   CallGetBalance a])%list.
Proof.
  intros Hne Hv Hst.
  rewrite (setContractAddress_without_storage E a m Hne Hv Hst). simpl. auto.
Qed.

Lemma selection_without_storage_changes_nothing_witness :
  let r := setContractAddress storageUnavailable Sample.otherMultisig Sample.loaded in
  state (snd r) = state Sample.loaded /\
  multisigContractAddress (snd r) = None /\
  published (snd r) = published Sample.loaded.
Proof.
  intros r.
  destruct (selection_without_storage_changes_nothing storageUnavailable
              Sample.otherMultisig Sample.loaded) as (_ & Hs & Hp & Hpub & _);
    try reflexivity.
  split; [exact Hs|]. split; [exact Hp|exact Hpub].
Defined.

(** The selection of a run that starts from a machine whose selection is
    the persisted one (or the default) is again the one a reload would
    make, whatever the actions and whatever the collaborators answer. *)
Lemma run_selectionPersisted (DEFAULT_CONTRACT_ADDRESS : string)
    (steps : list (Env.t * Action)) (m : Machine) :
  selectionPersisted DEFAULT_CONTRACT_ADDRESS m ->
  selectionPersisted DEFAULT_CONTRACT_ADDRESS (run steps m).
Proof.
  revert m. induction steps as [|[E a] rest IH]; intros m Hm; simpl; [exact Hm|].
  apply IH. unfold selectionPersisted in *.
  destruct (act_selection E a m) as [[Hc Hp]|(x & Hv & Hc & Hp)].
  - rewrite Hc, Hp. exact Hm.
  - rewrite Hc, Hp. simpl. rewrite (valid_is_truthy E x Hv). reflexivity.
Qed.

(** At every state reached from the constructed component, by any actions
    and any answers of the collaborators, the selected contract is the one a
    reload of the page would select: the persisted address if there is a
    non-empty one, the default otherwise. *)
Theorem selection_survives_reload (stored account : option string)
    (DEFAULT_CONTRACT_ADDRESS : string) (steps : list (Env.t * Action)) :
  let m := run steps (initialMachine stored DEFAULT_CONTRACT_ADDRESS account) in
  contractAddress (state m)
    = contractAddress (initialState (multisigContractAddress m) DEFAULT_CONTRACT_ADDRESS).
Proof.
  simpl. apply (run_selectionPersisted DEFAULT_CONTRACT_ADDRESS steps). reflexivity.
Qed.

(** With one validator throughout, a valid selection stays valid along
    every run: no action, failing or not, ever installs an address that
    does not validate. *)
Theorem selection_stays_valid (validate : string -> Z) (steps : list (Env.t * Action))
    (m : Machine) :
  Forall (fun step => forall x, Env.validateAddress (fst step) x = validate x) steps ->
  truthy (contractAddress (state m)) = true ->
  validate (contractAddress (state m)) = 3 ->
  truthy (contractAddress (state (run steps m))) = true /\
  validate (contractAddress (state (run steps m))) = 3.
Proof.
  revert m. induction steps as [|[E a] rest IH]; intros m Hall Ht Hv; simpl; [auto|].
  inversion Hall as [|? ? HE Hrest]; subst. simpl in HE.
  apply IH; [exact Hrest| |];
    destruct (act_selection E a m) as [[Hc _]|(x & Hx & Hc & _)]; rewrite Hc; auto;
    unfold isValidAddress in Hx; apply andb_true_iff in Hx; destruct Hx as [Hx1 Hx2];
    [exact Hx1|]. rewrite <- HE. apply Z.eqb_eq. exact Hx2.
Qed.

Lemma selection_stays_valid_witness :
  let E1 := Sample.chain 1 (Some Sample.alice) true true true in
  let E2 := Sample.chain 2 None true false true in
  let steps :=
    [(E1, ConnectWallet); (E2, SetContractAddress "KT1oops");
     (E2, SetContractAddress Sample.otherMultisig);
     (E2, Perform (MinimumVotesProposal 0)); (E1, DisconnectWallet)] in
  contractAddress (state (run steps Sample.loadedAnonymous)) = Sample.otherMultisig /\
  Sample.validateAddress (contractAddress (state (run steps Sample.loadedAnonymous))) = 3.
Proof.
  intros E1 E2 steps. split; [vm_compute; reflexivity|].
  apply (selection_stays_valid Sample.validateAddress steps Sample.loadedAnonymous).
  - repeat constructor.
  - vm_compute. reflexivity.
  - vm_compute. reflexivity.
Defined.

(** ** The wallet *)

(** A granted permission request: the account the wallet grants becomes
    the identity; when the storage is loaded its vote slice is fetched from
    the votes big map of that storage, otherwise no vote is fetched; every
    other field of the state is kept; the header then shows the address and
    the [unsync] button. *)
Theorem connectWallet_granted (E : Env.t) (m : Machine) (a : string) :
  Env.requestPermissions E = Some a ->
  truthy a = true ->
  fst (connectWallet E m) = Normal tt /\
  activeAccount (snd (connectWallet E m)) = Some a /\
  state (snd (connectWallet E m))
    = match storage (state m) with
      | Some st =>
          with_userVotes (Env.getUserVotes E (Some a) (Storage.votes st))
            (with_userAddress (Some a) (state m))
      | None => with_userAddress (Some a) (state m)
      end /\
  calls (snd (connectWallet E m))
    = (calls m ++ [CallRequestPermissions; CallGetUserAddress]
       ++ match storage (state m) with
          | Some st => [CallGetUserVotes (Some a) (Storage.votes st)]
          | None => []
          end)%list /\
  Wallet (state (snd (connectWallet E m)))
    = [TezosAddressLink a; Button "unsync" DisconnectWallet].
Proof.
  destruct m as [s stored account name cs out pub]. intros Hp Ha.
  run_all. rewrite Hp. cbn [truthy_opt]. rewrite Ha.
  destruct (storage s) as [st|] eqn:Hst; simpl; rewrite ?Hst; simpl;
    unfold Wallet; simpl; rewrite Ha; rewrite <- ?app_assoc; simpl; auto.
Qed.

Lemma connectWallet_granted_witness :
  let E := Sample.chain 2 (Some Sample.bob) true true true in
  userAddress (state (snd (connectWallet E Sample.loadedAnonymous))) = Some Sample.bob /\
  userVotes (state (snd (connectWallet E Sample.loadedAnonymous)))
    = Some [(0, true); (1, false)] /\
  Wallet (state (snd (connectWallet E Sample.loadedAnonymous)))
    = [TezosAddressLink Sample.bob; Button "unsync" DisconnectWallet].
Proof.
  intros E.
  destruct (connectWallet_granted E Sample.loadedAnonymous Sample.bob)
    as (_ & _ & Hs & _ & Hw); try reflexivity.
  rewrite Hs. split; [reflexivity|]. split; [reflexivity|].
  rewrite <- Hs. exact Hw.
Defined.

(** Connecting and then disconnecting, whatever the wallet answered,
    leaves the state a disconnection alone leaves: no identity, no vote
    slice, no cached contract reference, and the selection, the storage,
    the balance, the aliases, the proposals and the three messages as they
    were before; the wallet has no active account and the header shows the
    [sync] button alone. *)
Theorem connect_then_disconnect (E : Env.t) (m : Machine) :
  let m2 := snd (disconnectWallet (snd (connectWallet E m))) in
  state m2 = state (snd (disconnectWallet m)) /\
  state m2 = with_contract None (with_userVotes None (with_userAddress None (state m))) /\
  activeAccount m2 = None /\
  multisigContractAddress m2 = multisigContractAddress m /\
  Wallet (state m2) = [Button "sync" ConnectWallet].
Proof.
  destruct m as [s stored account name cs out pub]. run_all.
  destruct (Env.requestPermissions E) as [a|];
    [destruct (truthy a) eqn:Ha; cbn [truthy_opt]; rewrite ?Ha
    |destruct account as [a|]; [destruct (truthy a) eqn:Ha|]; cbn [truthy_opt]; rewrite ?Ha];
    destruct (storage s) as [st|] eqn:Hst; simpl; rewrite ?Hst; simpl;
    repeat split; reflexivity.
Qed.

(** The users list of the parameters view has one entry per user of the
    storage, in order; an entry carries the [is-user] class exactly when
    its address is the connected identity, so no entry does while no wallet
    is connected. *)
Theorem usersList_highlight (s : State) :
  map fst (usersList s)
    = match storage s with Some st => Storage.users st | None => [] end /\
  (forall u, In (u, true) (usersList s) <->
             exists st, storage s = Some st /\ In u (Storage.users st) /\
                        userAddress s = Some u) /\
  (userAddress s = None -> forallb (fun entry => negb (snd entry)) (usersList s) = true).
Proof.
  unfold usersList. destruct (storage s) as [st|]; simpl.
  - split; [|split].
    + rewrite map_map. simpl. apply map_id.
    + intros u. rewrite in_map_iff. split.
      * intros (x & Hx & Hin). injection Hx as -> Hu.
        exists st. split; [reflexivity|]. split; [exact Hin|].
        unfold isUser in Hu. destruct (userAddress s) as [a|]; [|discriminate].
        apply String.eqb_eq in Hu. subst. reflexivity.
      * intros (st' & Hst & Hin & Hu). injection Hst as <-.
        exists u. split; [|exact Hin]. rewrite Hu. simpl.
        rewrite String.eqb_refl. reflexivity.
    + intros Hu. rewrite Hu. simpl. apply forallb_forall.
      intros x Hx. apply in_map_iff in Hx. destruct Hx as (u & <- & _). reflexivity.
  - split; [reflexivity|]. split; [|reflexivity].
    intros u. split; [intros []|]. intros (st & Hst & _). discriminate.
Qed.

(** ** The contract reference *)

(** The contract reference is resolved once: a cached reference is
    returned with no call, no log and no [setState]; a reference just
    resolved is cached, so that the next resolution, whatever the chain
    would answer, returns it with no call; a resolution that yields nothing
    caches nothing, and the next one asks the chain again. *)
Theorem getContract_caches (E E' : Env.t) (m : Machine) :
  (forall k, contract (state m) = Some k -> getContract E m = (Normal (Some k), m)) /\
  (forall k, fst (getContract E m) = Normal (Some k) ->
     contract (state (snd (getContract E m))) = Some k /\
     getContract E' (snd (getContract E m)) = (Normal (Some k), snd (getContract E m))) /\
  (fst (getContract E m) = Normal None ->
     state (snd (getContract E m)) = state m /\
     calls (snd (getContract E' (snd (getContract E m))))
       = (calls m ++ [CallGetContract (contractAddress (state m));
                      CallGetContract (contractAddress (state m))])%list).
Proof.
  destruct m as [s stored account name cs out pub]. split; [|split].
  - intros k Hk. simpl in Hk. run_all. rewrite Hk. reflexivity.
  - intros k. run_all. destruct (contract s) as [c|] eqn:Hc.
    + simpl. intros H. injection H as ->. rewrite Hc. auto.
    + destruct (Env.getContract E (contractAddress s)) as [c|]; simpl; intros H;
        [|discriminate]. injection H as ->. auto.
  - run_all. destruct (contract s) as [c|] eqn:Hc; simpl; [discriminate|].
    destruct (Env.getContract E (contractAddress s)) as [c|]; simpl; [discriminate|].
    intros _. split.
    + apply with_contract_same. exact Hc.
    + rewrite <- app_assoc. reflexivity.
Qed.

(** Waiting for a confirmation: with no operation nothing happens at all;
    with an operation, the information message is shown, the confirmation
    is awaited once, and the message is removed again, the state being the
    same whether the confirmation succeeded or failed. *)
Theorem confirmOperation_clears_information (E : Env.t) (m : Machine) (op : Operation) :
  confirmOperation E None m = (Normal tt, m) /\
  fst (confirmOperation E (Some op) m) = Normal tt /\
  state (snd (confirmOperation E (Some op) m)) = with_informationMessage None (state m) /\
  calls (snd (confirmOperation E (Some op) m)) = (calls m ++ [CallConfirmation op])%list /\
  published (snd (confirmOperation E (Some op) m))
    = (published m
       ++ [with_informationMessage
             (Some "Waiting for the operation to be confirmed...") (state m);
           with_informationMessage None (state m)])%list.
Proof.
  destruct m as [s stored account name cs out pub]. split; [reflexivity|].
  run_all. destruct (Env.confirmation E op); simpl;
    rewrite <- ?app_assoc; repeat split; reflexivity.
Qed.

Lemma getContract_caches_witness :
  let E := Sample.chain 1 None true true true in
  let E' := Sample.chain 2 None false true true in
  let m1 := snd (getContract E Sample.loaded) in
  contract (state m1) = Some (ContractAt Sample.multisig) /\
  getContract E' m1 = (Normal (Some (ContractAt Sample.multisig)), m1) /\
  calls (snd (getContract E (snd (getContract E' Sample.loaded))))
    = (calls Sample.loaded ++ [CallGetContract Sample.multisig;
                               CallGetContract Sample.multisig])%list.
Proof.
  intros E E' m1.
  destruct (getContract_caches E E' Sample.loaded) as (_ & Hhit & _).
  destruct (getContract_caches E' E Sample.loaded) as (_ & _ & Hmiss).
  destruct (Hhit (ContractAt Sample.multisig)) as [H1 H2]; [vm_compute; reflexivity|].
  destruct Hmiss as [_ H3]; [vm_compute; reflexivity|].
  split; [exact H1|]. split; [exact H2|exact H3].
Defined.

Lemma usersList_highlight_witness :
  In (Sample.alice, true) (usersList (state Sample.loaded)) /\
  forallb (fun entry => negb (snd entry)) (usersList (state Sample.loadedAnonymous)) = true.
Proof.
  destruct (usersList_highlight (state Sample.loaded)) as (_ & Hin & _).
  destruct (usersList_highlight (state Sample.loadedAnonymous)) as (_ & _ & Hnone).
  split.
  - apply Hin. exists Sample.storage1. split; [reflexivity|].
    split; [simpl; auto|reflexivity].
  - apply Hnone. reflexivity.
Defined.

(** ** What proposals, votes and executions leave alone *)

(** No proposal creation, vote or execution, however it ends, changes the
    identity, the selected contract, the list of similar contracts, the
    confirmation message, the persisted address or the wallet account. *)
Theorem intents_keep_identity_and_selection (E : Env.t) (i : Intent) (m : Machine) :
  userAddress (state (snd (perform E i m))) = userAddress (state m) /\
  contractAddresses (state (snd (perform E i m))) = contractAddresses (state m) /\
  contractAddress (state (snd (perform E i m))) = contractAddress (state m) /\
  confirmationMessage (state (snd (perform E i m))) = confirmationMessage (state m) /\
  multisigContractAddress (snd (perform E i m)) = multisigContractAddress m /\
  activeAccount (snd (perform E i m)) = activeAccount m.
Proof.
  pose proof (perform_frame E i m) as H. unfold observe in H.
  repeat split; congruence.
Qed.

(** A proposal creation, however it ends (rejected, sent, failed), never
    changes the storage, the balance, the aliases or the vote slice: of the
    fetched fields it can only replace the proposals. *)
Theorem creations_keep_storage (E : Env.t) (i : Intent) (m : Machine) :
  createsProposal i = true ->
  storage (state (snd (perform E i m))) = storage (state m) /\
  balance (state (snd (perform E i m))) = balance (state m) /\
  userAliases (state (snd (perform E i m))) = userAliases (state m) /\
  userVotes (state (snd (perform E i m))) = userVotes (state m).
Proof.
  intros Hi. pose proof (creation_frame E i Hi m) as H. unfold observe in H.
  repeat split; congruence.
Qed.

Lemma creations_keep_storage_witness :
  let E := Sample.chain 2 None true true true in
  let r := perform E (TextProposal (Some "QmText")) Sample.loaded in
  storage (state (snd r)) = Some Sample.storage1 /\
  balance (state (snd r)) = Some 5000000 /\
  proposals (state (snd r)) = Some [(0, "p0"); (1, "p1")].
Proof.
  intros E r.
  destruct (creations_keep_storage E (TextProposal (Some "QmText")) Sample.loaded eq_refl)
    as (Hs & Hb & _).
  split; [exact Hs|]. split; [exact Hb|]. vm_compute. reflexivity.
Defined.

(** A vote and an execution always call a collaborator. *)
Lemma vote_execute_call (E : Env.t) (m : Machine) :
  (forall proposalId approval,
     calls (snd (voteProposal E proposalId approval m)) <> calls m) /\
  (forall proposalId, calls (snd (executeProposal E proposalId m)) <> calls m).
Proof.
  destruct m as [s stored account name cs out pub]. split; intros; run_all.
  - destruct (contract s) as [c|];
      [|destruct (Env.getContract E (contractAddress s)) as [c|]];
      try (simpl; apply app_cons_neq);
      (destruct (Env.send E c vote_proposal (PVote proposalId approval)) as [op|];
       [destruct (Env.confirmation E op)|]);
      simpl; destruct (storage s); simpl; rewrite <- ?app_assoc; apply app_cons_neq.
  - destruct (contract s) as [c|];
      [|destruct (Env.getContract E (contractAddress s)) as [c|]];
      try (simpl; apply app_cons_neq);
      (destruct (Env.send E c execute_proposal (PExecute proposalId)) as [op|];
       [destruct (Env.confirmation E op)|]);
      simpl; destruct (Env.getContractStorage E (contractAddress s)); simpl;
      rewrite <- ?app_assoc; apply app_cons_neq.
Qed.

(** Every proposal creation, vote and execution does one of two things.
    Either its validation rejects it: then it does nothing but set the error
    message. Or it contacts the chain: then, however the chain and the
    wallet answer, it never sets or clears the error message. *)
Theorem rejected_or_contacts_chain (E : Env.t) (i : Intent) (m : Machine) :
  (exists message, perform E i m = setErrorMessage (Some message) m) \/
  (calls (snd (perform E i m)) <> calls m /\
   errorMessage (state (snd (perform E i m))) = errorMessage (state m)).
Proof.
  assert (Hs : forall ep p,
             (exists message, submit E ep p m = setErrorMessage (Some message) m) \/
             (calls (snd (submit E ep p m)) <> calls m /\
              errorMessage (state (snd (submit E ep p m))) = errorMessage (state m))).
  { intros ep p. right. split; [apply submit_calls|].
    destruct (submit_effect E ep p m) as (_ & He & _). exact He. }
  destruct i; simpl.
  - unfold createTextProposal. destruct ipfsPath as [path|]; [destruct (truthy path)|];
      try apply Hs; left; eexists; reflexivity.
  - unfold createTransferMutezProposal.
    destruct (sumTransfers E transfers (Finite 0)) as [bad|total];
      [left; eexists; reflexivity|].
    rewrite bind_getState.
    destruct (exceeds total (balance (state m))); [left; eexists; reflexivity|apply Hs].
  - unfold createTransferTokenProposal.
    destruct (negb (isValidAddress E tokenAddress)); [left; eexists; reflexivity|].
    destruct (firstInvalidDestination E transfers); [left; eexists; reflexivity|apply Hs].
  - unfold createMinimumVotesProposal. rewrite bind_getState.
    destruct ((v <=? 0) || moreThanUsers v (storage (state m)));
      [left; eexists; reflexivity|apply Hs].
  - unfold createExpirationTimeProposal.
    destruct (t <=? 0); [left; eexists; reflexivity|apply Hs].
  - unfold createAddUserProposal.
    destruct (negb (isValidAddress E a)); [left; eexists; reflexivity|].
    rewrite bind_getState.
    destruct (usersInclude (storage (state m)) a); [left; eexists; reflexivity|apply Hs].
  - unfold createRemoveUserProposal.
    destruct (negb (isValidAddress E a)); [left; eexists; reflexivity|].
    rewrite bind_getState.
    destruct (negb (usersInclude (storage (state m)) a));
      [left; eexists; reflexivity|apply Hs].
  - unfold createLambdaFunctionProposal.
    destruct (Env.parseMichelineExpression E michelineCode);
      [apply Hs|left; eexists; reflexivity].
  - right. split; [apply vote_execute_call|].
    exact (proj1 (vote_execute_keep_error E) proposalId approval m).
  - right. split; [apply vote_execute_call|].
    exact (proj2 (vote_execute_keep_error E) proposalId m).
Qed.

(** ** Submissions from end to end *)

(** A submission that is sent, with a contract reference (cached or just
    resolved) and the storage loaded: the reference is resolved only if it
    was not cached, the entry point is sent once, the confirmation awaited
    once and the keys of the proposals big map fetched once, in that order;
    afterwards the reference is cached, the information message is removed
    and the proposals are the keys fetched, whether or not the confirmation
    succeeded. *)
Theorem submission_sent (E : Env.t) (ep : EntryPoint) (p : Parameters) (m : Machine)
    (k : Contract) (op : Operation) (st : Storage.t) :
  resolved E (state m) = Some k ->
  Env.send E k ep p = Some op ->
  storage (state m) = Some st ->
  fst (submit E ep p m) = Normal tt /\
  calls (snd (submit E ep p m))
    = (calls m
       ++ match contract (state m) with
          | Some _ => []
          | None => [CallGetContract (contractAddress (state m))]
          end
       ++ [CallSend k ep p; CallConfirmation op;
           CallGetBigmapKeys (Storage.proposals st)])%list /\
  contract (state (snd (submit E ep p m))) = Some k /\
  informationMessage (state (snd (submit E ep p m))) = None /\
  proposals (state (snd (submit E ep p m))) = Env.getBigmapKeys E (Storage.proposals st).
Proof.
  destruct m as [s stored account name cs out pub]. unfold resolved.
  intros Hk Hsend Hst. simpl in Hk, Hst. run_all.
  destruct (contract s) as [c|] eqn:Hc.
  - injection Hk as ->. rewrite Hsend. simpl.
    destruct (Env.confirmation E op); simpl; rewrite Hst; simpl;
      rewrite <- ?app_assoc; auto.
  - rewrite Hk, Hsend. simpl.
    destruct (Env.confirmation E op); simpl; rewrite Hst; simpl;
      rewrite <- ?app_assoc; auto.
Qed.

Lemma submission_sent_witness :
  let E := Sample.chain 2 None true true false in
  let r := submit E expiration_time_proposal (PNumber 3) Sample.loaded in
  calls (snd r)
    = (calls Sample.loaded
       ++ [CallGetContract Sample.multisig;
           CallSend (ContractAt Sample.multisig) expiration_time_proposal (PNumber 3);
           CallConfirmation (mkOperation "op1"); CallGetBigmapKeys 10])%list /\
  proposals (state (snd r)) = Some [(0, "p0"); (1, "p1")].
Proof.
  intros E r.
  destruct (submission_sent E expiration_time_proposal (PNumber 3) Sample.loaded
              (ContractAt Sample.multisig) (mkOperation "op1") Sample.storage1)
    as (_ & Hc & _ & _ & Hp); try reflexivity.
  split; [exact Hc|exact Hp].
Defined.

(** A submission while the storage is not loaded: the entry point is sent
    all the same (and its confirmation awaited when the send succeeds), but
    the refresh then fails on the undefined storage. Awaited, as
    [createProposal] itself, this is a [TypeError]; the proposal operations
    do not await it, so they return normally, the proposals being what they
    were and no error message being set. *)
Theorem submission_without_storage (E : Env.t) (ep : EntryPoint) (p : Parameters)
    (m : Machine) (k : Contract) :
  resolved E (state m) = Some k ->
  storage (state m) = None ->
  fst (createProposal E k ep p m)
    = Abrupt (TypeError "Cannot read properties of undefined (reading 'proposals')") /\
  fst (submit E ep p m) = Normal tt /\
  calls (snd (submit E ep p m))
    = (calls m
       ++ match contract (state m) with
          | Some _ => []
          | None => [CallGetContract (contractAddress (state m))]
          end
       ++ CallSend k ep p
          :: match Env.send E k ep p with
             | Some op => [CallConfirmation op]
             | None => []
             end)%list /\
  proposals (state (snd (submit E ep p m))) = proposals (state m) /\
  errorMessage (state (snd (submit E ep p m))) = errorMessage (state m).
Proof.
  destruct m as [s stored account name cs out pub]. unfold resolved.
  intros Hk Hst. simpl in Hk, Hst. run_all.
  destruct (contract s) as [c|] eqn:Hc.
  - injection Hk as ->.
    destruct (Env.send E k ep p) as [op|];
      [destruct (Env.confirmation E op)|]; simpl; rewrite Hst; simpl;
      rewrite <- ?app_assoc; auto.
  - rewrite Hk.
    destruct (Env.send E k ep p) as [op|];
      [destruct (Env.confirmation E op)|]; simpl; rewrite Hst; simpl;
      rewrite <- ?app_assoc; auto.
Qed.

Lemma submission_without_storage_witness :
  let E := Sample.chain 1 None true true true in
  let m := initialMachine None Sample.multisig None in
  fst (createMinimumVotesProposal E 1000000 m) = Normal tt /\
  calls (snd (submit E minimum_votes_proposal (PNumber 1000000) m))
    = [CallGetContract Sample.multisig;
       CallSend (ContractAt Sample.multisig) minimum_votes_proposal (PNumber 1000000);
       CallConfirmation (mkOperation "op1")] /\
  proposals (state (snd (submit E minimum_votes_proposal (PNumber 1000000) m))) = None.
Proof.
  intros E m.
  destruct (submission_without_storage E minimum_votes_proposal (PNumber 1000000) m
              (ContractAt Sample.multisig)) as (_ & _ & Hc & Hp & _); try reflexivity.
  split; [vm_compute; reflexivity|]. split; [exact Hc|exact Hp].
Defined.

(** A vote while the storage is not loaded: the vote is sent all the same
    (and its confirmation awaited when the send succeeds), then the refresh
    raises a [TypeError] on the undefined storage, which, the vote being
    awaited to its end, is how the operation completes; the proposals and
    the vote slice are what they were. *)
Theorem vote_without_storage (E : Env.t) (proposalId : Z) (approval : bool)
    (m : Machine) (k : Contract) :
  resolved E (state m) = Some k ->
  storage (state m) = None ->
  fst (voteProposal E proposalId approval m)
    = Abrupt (TypeError "Cannot read properties of undefined (reading 'proposals')") /\
  calls (snd (voteProposal E proposalId approval m))
    = (calls m
       ++ match contract (state m) with
          | Some _ => []
          | None => [CallGetContract (contractAddress (state m))]
          end
       ++ CallSend k vote_proposal (PVote proposalId approval)
          :: match Env.send E k vote_proposal (PVote proposalId approval) with
             | Some op => [CallConfirmation op]
             | None => []
             end)%list /\
  proposals (state (snd (voteProposal E proposalId approval m))) = proposals (state m) /\
  userVotes (state (snd (voteProposal E proposalId approval m))) = userVotes (state m).
Proof.
  destruct m as [s stored account name cs out pub]. unfold resolved.
  intros Hk Hst. simpl in Hk, Hst. run_all.
  destruct (contract s) as [c|] eqn:Hc.
  - injection Hk as ->.
    destruct (Env.send E k vote_proposal (PVote proposalId approval)) as [op|];
      [destruct (Env.confirmation E op)|]; simpl; rewrite Hst; simpl;
      rewrite <- ?app_assoc; auto.
  - rewrite Hk.
    destruct (Env.send E k vote_proposal (PVote proposalId approval)) as [op|];
      [destruct (Env.confirmation E op)|]; simpl; rewrite Hst; simpl;
      rewrite <- ?app_assoc; auto.
Qed.

Lemma vote_without_storage_witness :
  let E := Sample.chain 1 None true true true in
  let m := initialMachine None Sample.multisig None in
  fst (voteProposal E 0 true m)
    = Abrupt (TypeError "Cannot read properties of undefined (reading 'proposals')") /\
  proposals (state (snd (voteProposal E 0 true m))) = None.
Proof.
  intros E m.
  destruct (vote_without_storage E 0 true m (ContractAt Sample.multisig))
    as (Hf & _ & Hp & _); try reflexivity.
  split; [exact Hf|exact Hp].
Defined.

(** An execution whose storage fetch yields nothing: the execution is
    sent, the storage and the balance are queried, and the operation then
    raises a [TypeError]; nothing of the refresh is published: the storage,
    the balance, the aliases, the proposals and the vote slice are all what
    they were. *)
Theorem execute_without_storage (E : Env.t) (proposalId : Z) (m : Machine) (k : Contract) :
  resolved E (state m) = Some k ->
  Env.getContractStorage E (contractAddress (state m)) = None ->
  fst (executeProposal E proposalId m)
    = Abrupt (TypeError "Cannot read properties of undefined (reading 'users')") /\
  calls (snd (executeProposal E proposalId m))
    = (calls m
       ++ match contract (state m) with
          | Some _ => []
          | None => [CallGetContract (contractAddress (state m))]
          end
       ++ CallSend k execute_proposal (PExecute proposalId)
          :: match Env.send E k execute_proposal (PExecute proposalId) with
             | Some op => [CallConfirmation op]
             | None => []
             end
       ++ [CallGetContractStorage (contractAddress (state m));
           CallGetBalance (contractAddress (state m))])%list /\
  storage (state (snd (executeProposal E proposalId m))) = storage (state m) /\
  balance (state (snd (executeProposal E proposalId m))) = balance (state m) /\
  userAliases (state (snd (executeProposal E proposalId m))) = userAliases (state m) /\
  proposals (state (snd (executeProposal E proposalId m))) = proposals (state m) /\
  userVotes (state (snd (executeProposal E proposalId m))) = userVotes (state m).
Proof.
  destruct m as [s stored account name cs out pub]. unfold resolved.
  intros Hk Hst. simpl in Hk, Hst. run_all.
  destruct (contract s) as [c|] eqn:Hc.
  - injection Hk as ->.
    destruct (Env.send E k execute_proposal (PExecute proposalId)) as [op|];
      [destruct (Env.confirmation E op)|]; simpl; rewrite Hst; simpl;
      rewrite <- ?app_assoc; simpl; repeat split; auto.
  - rewrite Hk.
    destruct (Env.send E k execute_proposal (PExecute proposalId)) as [op|];
      [destruct (Env.confirmation E op)|]; simpl; rewrite Hst; simpl;
      rewrite <- ?app_assoc; simpl; repeat split; auto.
Qed.

Lemma execute_without_storage_witness :
  let E := storageUnavailable in
  fst (executeProposal E 0 Sample.loaded)
    = Abrupt (TypeError "Cannot read properties of undefined (reading 'users')") /\
  storage (state (snd (executeProposal E 0 Sample.loaded))) = Some Sample.storage1 /\
  balance (state (snd (executeProposal E 0 Sample.loaded))) = Some 5000000.
Proof.
  intros E.
  destruct (execute_without_storage E 0 Sample.loaded (ContractAt Sample.multisig))
    as (Hf & _ & Hs & Hb & _); try reflexivity.
  split; [exact Hf|]. split; [exact Hs|exact Hb].
Defined.

(** ** The other validations *)

(** A rejection calls no collaborator; the common tail calls one. *)
Lemma rejected_iff (message : option string) (m : Machine) (P : Prop) :
  ~ P -> (calls (snd (setErrorMessage message m)) <> calls m <-> P).
Proof. intros HP. simpl. split; [intros H; exfalso; apply H; reflexivity|tauto]. Qed.

Lemma passed_iff (E : Env.t) (ep : EntryPoint) (p : Parameters) (m : Machine) (P : Prop) :
  P -> (calls (snd (submit E ep p m)) <> calls m <-> P).
Proof. intros HP. split; [tauto|]. intros _. apply submit_calls. Qed.

(** [users.includes(a)] on the loaded storage. *)
Lemma usersInclude_In (st : Storage.t) (a : string) :
  usersInclude (Some st) a = true <-> In a (Storage.users st).
Proof.
  unfold usersInclude. rewrite existsb_exists. split.
  - intros (x & Hin & Hx). apply String.eqb_eq in Hx. subst. exact Hin.
  - intros Hin. exists a. split; [exact Hin|apply String.eqb_refl].
Qed.

(** The loop over the destinations of a token transfer finds nothing
    exactly when every destination validates, and otherwise stops at a
    destination that does not validate. *)
Lemma firstInvalidDestination_spec (E : Env.t) (transfers : list Transfer) :
  (destinationsValid E transfers = true /\ firstInvalidDestination E transfers = None) \/
  (exists bad,
     In bad (map destination transfers) /\ isValidAddress E bad = false /\
     destinationsValid E transfers = false /\
     firstInvalidDestination E transfers = Some bad).
Proof.
  induction transfers as [|t rest IH]; simpl; [left; auto|].
  destruct (isValidAddress E (destination t)) eqn:Hv; simpl.
  - destruct IH as [[Hall Hnone]|(bad & Hin & Hbad & Hall & Hsome)].
    + left. auto.
    + right. exists bad. auto.
  - right. exists (destination t). auto.
Qed.

(** The expiration-time proposal passes its validation exactly when the
    value is above 0, with no upper bound: then it goes on to the common
    tail with that value; otherwise it only sets its error message. *)
Theorem expiration_time_validation (E : Env.t) (t : Z) (m : Machine) :
  (calls (snd (createExpirationTimeProposal E t m)) <> calls m <-> 0 < t) /\
  (0 < t ->
   createExpirationTimeProposal E t m = submit E expiration_time_proposal (PNumber t) m) /\
  (t <= 0 ->
   createExpirationTimeProposal E t m
     = setErrorMessage (Some "The expiration time needs to be at least one day") m).
Proof.
  unfold createExpirationTimeProposal.
  destruct (Z.leb_spec t 0); split; [|split| |split];
    try (intros; reflexivity); try (intros; lia).
  - apply rejected_iff. lia.
  - apply passed_iff. lia.
Qed.

(** With the storage loaded, an add-user proposal for an address that
    validates passes exactly when the address is not yet a user; for a user
    it only sets the error message that says so. *)
Theorem add_user_validation (E : Env.t) (a : string) (m : Machine) (st : Storage.t) :
  storage (state m) = Some st ->
  isValidAddress E a = true ->
  (calls (snd (createAddUserProposal E a m)) <> calls m <-> ~ In a (Storage.users st)) /\
  (~ In a (Storage.users st) ->
   createAddUserProposal E a m = submit E add_user_proposal (PAddress a) m) /\
  (In a (Storage.users st) ->
   createAddUserProposal E a m
     = setErrorMessage (Some "The provided address is already a multisig user") m).
Proof.
  intros Hst Hv. unfold createAddUserProposal. rewrite Hv. simpl.
  rewrite bind_getState, Hst.
  pose proof (usersInclude_In st a) as Hin.
  destruct (usersInclude (Some st) a) eqn:Hu.
  - assert (In a (Storage.users st)) by (apply Hin; reflexivity).
    split; [|split]; [|tauto|reflexivity].
    apply rejected_iff. tauto.
  - assert (~ In a (Storage.users st)) by (intros H; apply Hin in H; discriminate).
    split; [|split]; [|reflexivity|tauto].
    apply passed_iff. exact H.
Qed.

Lemma add_user_validation_witness :
  let E := Sample.chain 1 None true true true in
  createAddUserProposal E Sample.alice Sample.loaded
    = setErrorMessage (Some "The provided address is already a multisig user") Sample.loaded /\
  createAddUserProposal E Sample.otherMultisig Sample.loaded
    = submit E add_user_proposal (PAddress Sample.otherMultisig) Sample.loaded.
Proof.
  intros E.
  destruct (add_user_validation E Sample.alice Sample.loaded Sample.storage1 eq_refl eq_refl)
    as (_ & _ & Hin).
  destruct (add_user_validation E Sample.otherMultisig Sample.loaded Sample.storage1
              eq_refl eq_refl) as (_ & Hout & _).
  split.
  - apply Hin. simpl. auto.
  - apply Hout. simpl. intros [H|[H|[H|[]]]]; discriminate.
Defined.

(** A remove-user proposal for an address that validates passes exactly
    when the storage is loaded and the address is one of its users. In
    particular, while the storage is not loaded every removal is rejected,
    with the message that the address is not a user. *)
Theorem remove_user_validation (E : Env.t) (a : string) (m : Machine) :
  isValidAddress E a = true ->
  (calls (snd (createRemoveUserProposal E a m)) <> calls m
   <-> exists st, storage (state m) = Some st /\ In a (Storage.users st)) /\
  ((exists st, storage (state m) = Some st /\ In a (Storage.users st)) ->
   createRemoveUserProposal E a m = submit E remove_user_proposal (PAddress a) m) /\
  (storage (state m) = None ->
   createRemoveUserProposal E a m
     = setErrorMessage (Some "The provided address is not a multisig user") m).
Proof.
  intros Hv. unfold createRemoveUserProposal. rewrite Hv. simpl.
  rewrite bind_getState.
  destruct (storage (state m)) as [st|] eqn:Hst.
  - pose proof (usersInclude_In st a) as Hin.
    destruct (usersInclude (Some st) a) eqn:Hu; cbn [negb].
    + assert (In a (Storage.users st)) by (apply Hin; reflexivity).
      split; [|split]; [|reflexivity|discriminate].
      apply passed_iff. exists st. auto.
    + assert (Hn : ~ In a (Storage.users st)) by (intros H; apply Hin in H; discriminate).
      split; [|split]; [| |discriminate].
      * apply rejected_iff.
        intros (st' & Heq & H). injection Heq as <-. tauto.
      * intros (st' & Heq & H). injection Heq as <-. tauto.
  - cbn [usersInclude negb]. split; [|split]; [| |reflexivity].
    + apply rejected_iff. intros (st & Heq & _). discriminate.
    + intros (st & Heq & _). discriminate.
Qed.

Lemma remove_user_validation_witness :
  let E := Sample.chain 1 None true true true in
  createRemoveUserProposal E Sample.alice (initialMachine None Sample.multisig None)
    = setErrorMessage (Some "The provided address is not a multisig user")
        (initialMachine None Sample.multisig None) /\
  createRemoveUserProposal E Sample.alice Sample.loaded
    = submit E remove_user_proposal (PAddress Sample.alice) Sample.loaded.
Proof.
  intros E.
  destruct (remove_user_validation E Sample.alice (initialMachine None Sample.multisig None)
              eq_refl) as (_ & _ & Hnone).
  destruct (remove_user_validation E Sample.alice Sample.loaded eq_refl) as (_ & Hin & _).
  split; [apply Hnone; reflexivity|].
  apply Hin. exists Sample.storage1. split; [reflexivity|simpl; auto].
Defined.

Lemma expiration_time_validation_witness :
  let E := Sample.chain 1 None true true true in
  createExpirationTimeProposal E 36500 Sample.loaded
    = submit E expiration_time_proposal (PNumber 36500) Sample.loaded /\
  createExpirationTimeProposal E 0 Sample.loaded
    = setErrorMessage (Some "The expiration time needs to be at least one day") Sample.loaded.
Proof.
  intros E.
  destruct (expiration_time_validation E 36500 Sample.loaded) as (_ & Hpass & _).
  destruct (expiration_time_validation E 0 Sample.loaded) as (_ & _ & Hfail).
  split; [apply Hpass; lia|apply Hfail; lia].
Defined.

(** A text proposal passes exactly when it is given a non-empty IPFS
    path; the parameter sent is then the hexadecimal form of the path
    prefixed with [ipfs://]; without a path it only sets its error
    message. *)
Theorem text_proposal_validation (E : Env.t) (ipfsPath : option string) (m : Machine) :
  (calls (snd (createTextProposal E ipfsPath m)) <> calls m
   <-> truthy_opt ipfsPath = true) /\
  (forall path, ipfsPath = Some path -> truthy path = true ->
   createTextProposal E ipfsPath m
     = submit E text_proposal (PHex (Env.stringToHex E ("ipfs://" ++ path))) m) /\
  (truthy_opt ipfsPath = false ->
   createTextProposal E ipfsPath m
     = setErrorMessage (Some "The text proposal needs to be uploaded first to IPFS") m).
Proof.
  unfold createTextProposal.
  destruct ipfsPath as [path|]; [destruct (truthy path) eqn:Ht|]; cbn [truthy_opt];
    rewrite ?Ht; (split; [|split]).
  - apply passed_iff. reflexivity.
  - intros x Hx Hxt. injection Hx as <-. reflexivity.
  - discriminate.
  - apply rejected_iff. discriminate.
  - intros x Hx Hxt. injection Hx as <-. rewrite Hxt in Ht. discriminate.
  - reflexivity.
  - apply rejected_iff. discriminate.
  - discriminate.
  - reflexivity.
Qed.

Lemma text_proposal_validation_witness :
  let E := Sample.chain 1 None true true true in
  createTextProposal E (Some "QmText") Sample.loaded
    = submit E text_proposal (PHex "ipfs://QmText") Sample.loaded /\
  createTextProposal E (Some "") Sample.loaded
    = setErrorMessage (Some "The text proposal needs to be uploaded first to IPFS")
        Sample.loaded.
Proof.
  intros E.
  destruct (text_proposal_validation E (Some "QmText") Sample.loaded) as (_ & Hpass & _).
  destruct (text_proposal_validation E (Some "") Sample.loaded) as (_ & _ & Hfail).
  split; [apply (Hpass "QmText"); reflexivity|apply Hfail; reflexivity].
Defined.

(** A lambda-function proposal passes exactly when the Micheline parser
    accepts the code; the parameter sent is then the parsed expression; when
    the parser throws it only sets its error message. *)
Theorem lambda_proposal_validation (E : Env.t) (michelineCode : string) (m : Machine) :
  (calls (snd (createLambdaFunctionProposal E michelineCode m)) <> calls m
   <-> Env.parseMichelineExpression E michelineCode <> None) /\
  (forall lambdaFunction,
     Env.parseMichelineExpression E michelineCode = Some lambdaFunction ->
     createLambdaFunctionProposal E michelineCode m
       = submit E lambda_function_proposal (PLambda lambdaFunction) m) /\
  (Env.parseMichelineExpression E michelineCode = None ->
   createLambdaFunctionProposal E michelineCode m
     = setErrorMessage
         (Some "The provided lambda function Michelson code is not correct") m).
Proof.
  unfold createLambdaFunctionProposal.
  destruct (Env.parseMichelineExpression E michelineCode) as [l|]; (split; [|split]).
  - apply passed_iff. discriminate.
  - intros x Hx. injection Hx as <-. reflexivity.
  - discriminate.
  - apply rejected_iff. intros H. apply H. reflexivity.
  - discriminate.
  - reflexivity.
Qed.

Lemma lambda_proposal_validation_witness :
  let E := Sample.chain 1 None true true true in
  createLambdaFunctionProposal E "" Sample.loaded
    = setErrorMessage (Some "The provided lambda function Michelson code is not correct")
        Sample.loaded /\
  createLambdaFunctionProposal E "{ DROP }" Sample.loaded
    = submit E lambda_function_proposal (PLambda "{ DROP }") Sample.loaded.
Proof.
  intros E.
  destruct (lambda_proposal_validation E "" Sample.loaded) as (_ & _ & Hfail).
  destruct (lambda_proposal_validation E "{ DROP }" Sample.loaded) as (_ & Hpass & _).
  split; [apply Hfail; reflexivity|apply (Hpass "{ DROP }"); reflexivity].
Defined.

(** A token-transfer proposal passes exactly when the token contract
    address and every destination validate: the amounts are never looked at
    and the balance is never consulted. A token address that does not
    validate is reported first; otherwise the error message names a
    destination of the payload that does not validate. *)
Theorem token_transfer_validation (E : Env.t) (tokenAddress : string) (tokenId : Z)
    (transfers : list Transfer) (m : Machine) :
  (calls (snd (createTransferTokenProposal E tokenAddress tokenId transfers m)) <> calls m
   <-> isValidAddress E tokenAddress = true /\ destinationsValid E transfers = true) /\
  (isValidAddress E tokenAddress = true -> destinationsValid E transfers = true ->
   createTransferTokenProposal E tokenAddress tokenId transfers m
     = submit E transfer_token_proposal (PTokenTransfers tokenAddress tokenId transfers) m) /\
  (isValidAddress E tokenAddress = false ->
   createTransferTokenProposal E tokenAddress tokenId transfers m
     = setErrorMessage
         (Some ("The provided token contract address is not a valid tezos address: "
                ++ tokenAddress)) m) /\
  (isValidAddress E tokenAddress = true -> destinationsValid E transfers = false ->
   exists bad,
     In bad (map destination transfers) /\ isValidAddress E bad = false /\
     createTransferTokenProposal E tokenAddress tokenId transfers m
       = setErrorMessage
           (Some ("The provided address is not a valid tezos address: " ++ bad)) m).
Proof.
  unfold createTransferTokenProposal.
  destruct (isValidAddress E tokenAddress) eqn:Hv; cbn [negb].
  - destruct (firstInvalidDestination_spec E transfers)
      as [[Hall Hnone]|(bad & Hin & Hbad & Hall & Hsome)].
    + rewrite Hnone, Hall. split; [|split; [|split]].
      * apply passed_iff. auto.
      * reflexivity.
      * discriminate.
      * discriminate.
    + rewrite Hsome, Hall. split; [|split; [|split]].
      * apply rejected_iff. intros [_ H]. discriminate.
      * discriminate.
      * discriminate.
      * intros _ _. exists bad. auto.
  - split; [|split; [|split]].
    + apply rejected_iff. intros [H _]. discriminate.
    + discriminate.
    + reflexivity.
    + discriminate.
Qed.

Lemma token_transfer_validation_witness :
  let E := Sample.chain 1 None true true true in
  let huge := [mkTransfer Sample.bob 1000000000000; mkTransfer Sample.carol (-5)] in
  createTransferTokenProposal E Sample.otherMultisig 7 huge Sample.loaded
    = submit E transfer_token_proposal (PTokenTransfers Sample.otherMultisig 7 huge)
        Sample.loaded /\
  createTransferTokenProposal E "KT1oops" 7 huge Sample.loaded
    = setErrorMessage
        (Some "The provided token contract address is not a valid tezos address: KT1oops")
        Sample.loaded.
Proof.
  intros E huge.
  destruct (token_transfer_validation E Sample.otherMultisig 7 huge Sample.loaded)
    as (_ & Hpass & _).
  destruct (token_transfer_validation E "KT1oops" 7 huge Sample.loaded)
    as (_ & _ & Hfail & _).
  split; [apply Hpass; reflexivity|apply Hfail; reflexivity].
Defined.

(** While the balance is not loaded, the balance check of a mutez
    transfer lets every total through: a payload whose destinations all
    validate goes on to the common tail whatever its amounts. *)
Theorem mutez_transfer_without_balance (E : Env.t) (transfers : list Transfer)
    (m : Machine) :
  balance (state m) = None ->
  destinationsValid E transfers = true ->
  createTransferMutezProposal E transfers m
    = submit E transfer_mutez_proposal (PTransfers transfers) m.
Proof.
  intros Hb Hall. unfold createTransferMutezProposal.
  destruct (sumTransfers_spec E transfers (Finite 0))
    as [[_ Hsum]|(bad & Hin & Hbad & Hsum)].
  - rewrite Hsum, bind_getState, Hb. reflexivity.
  - exfalso. unfold destinationsValid in Hall. rewrite forallb_forall in Hall.
    apply in_map_iff in Hin. destruct Hin as (t & <- & Hin).
    rewrite (Hall t Hin) in Hbad. discriminate.
Qed.

Lemma mutez_transfer_without_balance_witness :
  let E := Sample.chain 1 None true true true in
  let m := initialMachine None Sample.multisig None in
  let huge := [mkTransfer Sample.bob 1000000000000] in
  createTransferMutezProposal E huge m
    = submit E transfer_mutez_proposal (PTransfers huge) m.
Proof.
  intros E m huge.
  apply (mutez_transfer_without_balance E huge m); reflexivity.
Defined.

(** ** Uploads *)

(** Uploading a file. Without a file the error message is set, nothing is
    uploaded and the result is undefined. With a file, the file is handed to
    IPFS once and the result is the path IPFS answers, undefined when the
    upload failed; a failed upload sets no error message. The information
    message is shown and removed only when asked for; otherwise the state is
    not touched and nothing is published. *)
Theorem upload_file_outcome (E : Env.t) (displayUploadInformation : bool) (m : Machine) :
  (fst (uploadFileToIpfs E None displayUploadInformation m) = Normal None /\
   snd (uploadFileToIpfs E None displayUploadInformation m)
     = snd (setErrorMessage (Some "A file needs to be loaded before uploading to IPFS") m)) /\
  (forall f,
     fst (uploadFileToIpfs E (Some f) displayUploadInformation m)
       = Normal (Env.add E (FileContent f)) /\
     calls (snd (uploadFileToIpfs E (Some f) displayUploadInformation m))
       = (calls m ++ [CallIpfsAdd (FileContent f)])%list /\
     state (snd (uploadFileToIpfs E (Some f) displayUploadInformation m))
       = (if displayUploadInformation then with_informationMessage None (state m)
          else state m) /\
     errorMessage (state (snd (uploadFileToIpfs E (Some f) displayUploadInformation m)))
       = errorMessage (state m) /\
     (displayUploadInformation = false ->
      published (snd (uploadFileToIpfs E (Some f) displayUploadInformation m))
        = published m)).
Proof.
  destruct m as [s stored account name cs out pub]. split; [split; reflexivity|].
  intros f. run_all.
  destruct displayUploadInformation; destruct (Env.add E (FileContent f)); simpl;
    repeat split; auto; discriminate.
Qed.

Lemma upload_file_outcome_witness :
  let E := Sample.chain 1 None true true true in
  let f := mkFile "notes.txt" "hello" in
  fst (uploadFileToIpfs E (Some f) false Sample.loaded) = Normal (Some "Qm1") /\
  published (snd (uploadFileToIpfs E (Some f) false Sample.loaded))
    = published Sample.loaded.
Proof.
  intros E f.
  destruct (upload_file_outcome E false Sample.loaded) as (_ & H).
  destruct (H f) as (Hr & _ & _ & _ & Hp).
  split; [exact Hr|apply Hp; reflexivity].
Defined.

(** Uploading metadata: the metadata is handed to IPFS once and the
    result is the path IPFS answers, undefined when the upload failed; a
    failed upload sets no error message; without the information message the
    state is not touched and nothing is published. *)
Theorem upload_metadata_outcome (E : Env.t) (metadata : Content)
    (displayUploadInformation : bool) (m : Machine) :
  fst (uploadMetadataToIpfs E metadata displayUploadInformation m)
    = Normal (Env.add E metadata) /\
  calls (snd (uploadMetadataToIpfs E metadata displayUploadInformation m))
    = (calls m ++ [CallIpfsAdd metadata])%list /\
  state (snd (uploadMetadataToIpfs E metadata displayUploadInformation m))
    = (if displayUploadInformation then with_informationMessage None (state m)
       else state m) /\
  errorMessage (state (snd (uploadMetadataToIpfs E metadata displayUploadInformation m)))
    = errorMessage (state m) /\
  (displayUploadInformation = false ->
   published (snd (uploadMetadataToIpfs E metadata displayUploadInformation m))
     = published m).
Proof.
  destruct m as [s stored account name cs out pub]. run_all.
  destruct displayUploadInformation; destruct (Env.add E metadata); simpl;
    repeat split; auto; discriminate.
Qed.

Lemma upload_metadata_outcome_witness :
  let E := Sample.chain 1 None true true true in
  published (snd (uploadMetadataToIpfs E (MetadataJson "dao") false Sample.loaded))
    = published Sample.loaded.
Proof.
  intros E.
  destruct (upload_metadata_outcome E (MetadataJson "dao") false Sample.loaded)
    as (_ & _ & _ & _ & Hp).
  apply Hp. reflexivity.
Defined.

(** ** Origination *)

(** When every user address validates, the loop of [originate] finds
    nothing. *)
Lemma firstInvalidUser_none (E : Env.t) (us : list string) :
  forallb (isValidAddress E) us = true -> firstInvalidUser E us = None.
Proof.
  induction us as [|u rest IH]; simpl; [reflexivity|].
  intros H. apply andb_true_iff in H. destruct H as [Hu Hrest].
  rewrite Hu. simpl. exact (IH Hrest).
Qed.

(** What [originate] does once its three checks have passed. *)
Lemma originate_runs (E : Env.t) (parameters : OriginateParameters) (m : Machine) :
  forallb (isValidAddress E) (o_users parameters) = true ->
  0 < minimumVotes parameters <= Z.of_nat (List.length (o_users parameters)) ->
  0 < expirationTime parameters ->
  let initial :=
    mkOriginationStorage 0 (expirationTime parameters)
      [("", Env.stringToHex E
              match Env.add E (MetadataJson (name parameters)) with
              | Some path => "ipfs://" ++ path
              | None => "ipfs://undefined"
              end)]
      (minimumVotes parameters) [] (o_users parameters) [] in
  fst (originate E parameters m) = Normal tt /\
  calls (snd (originate E parameters m))
    = (calls m
       ++ [CallIpfsAdd (MetadataJson (name parameters)); CallOriginate initial]
       ++ match Env.originate E initial with
          | Some op => [CallOriginationOperation op]
          | None => []
          end)%list /\
  state (snd (originate E parameters m)) = with_informationMessage None (state m) /\
  multisigContractAddress (snd (originate E parameters m)) = multisigContractAddress m /\
  metadataName (snd (originate E parameters m)) = Some (name parameters).
Proof.
  destruct m as [s stored account nm cs out pub]. intros Hu [Hv1 Hv2] He initial.
  subst initial. run_all. unfold ipfsUri.
  rewrite (firstInvalidUser_none E _ Hu).
  destruct (Z.leb_spec (minimumVotes parameters) 0); [lia|].
  destruct (Z.gtb_spec (minimumVotes parameters)
              (Z.of_nat (List.length (o_users parameters)))); [lia|].
  destruct (Z.leb_spec (expirationTime parameters) 0); [lia|].
  cbn [orb].
  destruct (Env.add E (MetadataJson (name parameters))) as [path|]; simpl;
    match goal with
    | |- context [Env.originate E ?i] => destruct (Env.originate E i) as [op|]
    end; simpl;
    try (destruct (Env.originationOperation E op)); simpl;
    rewrite <- ?app_assoc; simpl; repeat split; reflexivity.
Qed.

(** With a user list whose addresses all validate, [originate] passes its
    validation exactly when [0 < minimumVotes <= number of users] and
    [0 < expirationTime]; the minimum-votes bound is checked first, and a
    rejection only sets the error message of the failed check. *)
Theorem originate_validation (E : Env.t) (parameters : OriginateParameters) (m : Machine) :
  forallb (isValidAddress E) (o_users parameters) = true ->
  (calls (snd (originate E parameters m)) <> calls m
   <-> 0 < minimumVotes parameters <= Z.of_nat (List.length (o_users parameters)) /\
       0 < expirationTime parameters) /\
  (~ 0 < minimumVotes parameters <= Z.of_nat (List.length (o_users parameters)) ->
   originate E parameters m
     = setErrorMessage
         (Some "The minimum votes need to be higher than 0 and less or equal to the number of multisig users")
         m) /\
  (0 < minimumVotes parameters <= Z.of_nat (List.length (o_users parameters)) ->
   expirationTime parameters <= 0 ->
   originate E parameters m
     = setErrorMessage (Some "The expiration time needs to be at least one day") m).
Proof.
  intros Hu.
  assert (Hmv : ~ 0 < minimumVotes parameters <= Z.of_nat (List.length (o_users parameters)) ->
                originate E parameters m
                = setErrorMessage
                    (Some "The minimum votes need to be higher than 0 and less or equal to the number of multisig users")
                    m).
  { intros Hn. unfold originate. rewrite (firstInvalidUser_none E _ Hu).
    destruct (Z.leb_spec (minimumVotes parameters) 0); [reflexivity|].
    destruct (Z.gtb_spec (minimumVotes parameters)
                (Z.of_nat (List.length (o_users parameters)))); [reflexivity|lia]. }
  assert (Hex : 0 < minimumVotes parameters <= Z.of_nat (List.length (o_users parameters)) ->
                expirationTime parameters <= 0 ->
                originate E parameters m
                = setErrorMessage (Some "The expiration time needs to be at least one day") m).
  { intros Hv He. unfold originate. rewrite (firstInvalidUser_none E _ Hu).
    destruct (Z.leb_spec (minimumVotes parameters) 0); [lia|].
    destruct (Z.gtb_spec (minimumVotes parameters)
                (Z.of_nat (List.length (o_users parameters)))); [lia|].
    destruct (Z.leb_spec (expirationTime parameters) 0); [reflexivity|lia]. }
  split; [|split; assumption].
  destruct (Z_lt_dec 0 (minimumVotes parameters)) as [H0|H0];
    [destruct (Z_le_dec (minimumVotes parameters)
                 (Z.of_nat (List.length (o_users parameters)))) as [H1|H1];
     [destruct (Z_lt_dec 0 (expirationTime parameters)) as [H2|H2]|]|].
  - split; [intros _; lia|]. intros _.
    destruct (originate_runs E parameters m Hu (conj H0 H1) H2) as (_ & Hc & _).
    rewrite Hc. apply app_cons_neq.
  - rewrite Hex by lia. apply rejected_iff. lia.
  - rewrite Hmv by lia. apply rejected_iff. lia.
  - rewrite Hmv by lia. apply rejected_iff. lia.
Qed.

Lemma originate_validation_witness :
  let E := Sample.chain 1 None true true true in
  let users := [Sample.alice; Sample.bob; Sample.carol] in
  originate E (mkOriginateParameters "dao" users 4 7) Sample.loaded
    = setErrorMessage
        (Some "The minimum votes need to be higher than 0 and less or equal to the number of multisig users")
        Sample.loaded /\
  originate E (mkOriginateParameters "dao" users 2 0) Sample.loaded
    = setErrorMessage (Some "The expiration time needs to be at least one day")
        Sample.loaded.
Proof.
  intros E users.
  destruct (originate_validation E (mkOriginateParameters "dao" users 4 7) Sample.loaded
              eq_refl) as (_ & Hmv & _).
  destruct (originate_validation E (mkOriginateParameters "dao" users 2 0) Sample.loaded
              eq_refl) as (_ & _ & Hex).
  split; [apply Hmv; simpl; lia|apply Hex; simpl; lia].
Defined.

(** An origination that passes its validation: the metadata is uploaded
    first, then the origination is sent with a storage whose counter is 0,
    whose proposals and votes are empty and whose metadata points to the
    uploaded path, to [ipfs://undefined] when the upload failed, which does
    not stop the origination; the origination operation is awaited only when
    the send succeeded. Afterwards the information message is removed and
    the rest of the state, with the selected contract and the persisted
    address, is what it was: the new contract is not selected. *)
Theorem originate_outcome (E : Env.t) (parameters : OriginateParameters) (m : Machine) :
  forallb (isValidAddress E) (o_users parameters) = true ->
  0 < minimumVotes parameters <= Z.of_nat (List.length (o_users parameters)) ->
  0 < expirationTime parameters ->
  fst (originate E parameters m) = Normal tt /\
  calls (snd (originate E parameters m))
    = (calls m
       ++ [CallIpfsAdd (MetadataJson (name parameters));
           CallOriginate
             (mkOriginationStorage 0 (expirationTime parameters)
                [("", Env.stringToHex E
                        match Env.add E (MetadataJson (name parameters)) with
                        | Some path => "ipfs://" ++ path
                        | None => "ipfs://undefined"
                        end)]
                (minimumVotes parameters) [] (o_users parameters) [])]
       ++ match
            Env.originate E
              (mkOriginationStorage 0 (expirationTime parameters)
                 [("", Env.stringToHex E
                         match Env.add E (MetadataJson (name parameters)) with
                         | Some path => "ipfs://" ++ path
                         | None => "ipfs://undefined"
                         end)]
                 (minimumVotes parameters) [] (o_users parameters) [])
          with
          | Some op => [CallOriginationOperation op]
          | None => []
          end)%list /\
  state (snd (originate E parameters m)) = with_informationMessage None (state m) /\
  multisigContractAddress (snd (originate E parameters m)) = multisigContractAddress m.
Proof.
  intros Hu Hv He.
  destruct (originate_runs E parameters m Hu Hv He) as (H1 & H2 & H3 & H4 & _).
  auto.
Qed.

Lemma originate_outcome_witness :
  let E := Sample.chain 1 None true true true in
  let parameters :=
    mkOriginateParameters "dao" [Sample.alice; Sample.bob; Sample.carol] 2 7 in
  calls (snd (originate E parameters Sample.loaded))
    = (calls Sample.loaded
       ++ [CallIpfsAdd (MetadataJson "dao");
           CallOriginate
             (mkOriginationStorage 0 7 [("", "ipfs://Qm1")] 2 []
                [Sample.alice; Sample.bob; Sample.carol] []);
           CallOriginationOperation (mkOperation "op2")])%list /\
  contractAddress (state (snd (originate E parameters Sample.loaded))) = Sample.multisig.
Proof.
  intros E parameters.
  assert (Hv : 0 < minimumVotes parameters
               <= Z.of_nat (List.length (o_users parameters))) by (simpl; lia).
  assert (He : 0 < expirationTime parameters) by (simpl; lia).
  destruct (originate_outcome E parameters Sample.loaded eq_refl Hv He)
    as (_ & Hc & Hs & _).
  split; [exact Hc|]. rewrite Hs. reflexivity.
Defined.

(** ** The initial load *)


(** An initial load whose storage fetch yields nothing makes four queries
    (wallet address, similar contracts, storage, balance) and no more; the
    storage of the snapshot becomes undefined, while the aliases, the
    proposals and the vote slice are left as they were. With the storage
    fetched but no identity in the wallet, the vote slice is not fetched
    and is left as it was. *)
Theorem loadInformation_partial (E : Env.t) (m : Machine) :
  (Env.getContractStorage E (contractAddress (state m)) = None ->
   calls (snd (loadInformation E m))
     = (calls m ++ [CallGetUserAddress;
                    CallGetSimilarContractAddresses (contractAddress (state m));
                    CallGetContractStorage (contractAddress (state m));
                    CallGetBalance (contractAddress (state m))])%list /\
   storage (state (snd (loadInformation E m))) = None /\
   userAliases (state (snd (loadInformation E m))) = userAliases (state m) /\
   proposals (state (snd (loadInformation E m))) = proposals (state m) /\
   userVotes (state (snd (loadInformation E m))) = userVotes (state m)) /\
  (forall st,
     Env.getContractStorage E (contractAddress (state m)) = Some st ->
     truthy_opt (activeAccount m) = false ->
     calls (snd (loadInformation E m))
       = (calls m ++ [CallGetUserAddress;
                      CallGetSimilarContractAddresses (contractAddress (state m));
                      CallGetContractStorage (contractAddress (state m));
                      CallGetBalance (contractAddress (state m));
                      CallGetUserAliases (Storage.users st);
                      CallGetBigmapKeys (Storage.proposals st)])%list /\
     userVotes (state (snd (loadInformation E m))) = userVotes (state m)).
Proof.
  destruct m as [s stored account name cs out pub]. split.
  - intros Hst. simpl in Hst. run_all. rewrite Hst. simpl.
    rewrite <- ?app_assoc. simpl. auto.
  - intros st Hst Hu. simpl in Hst, Hu. run_all. rewrite Hst, Hu. simpl.
    rewrite <- ?app_assoc. simpl. auto.
Qed.

Lemma loadInformation_partial_witness :
  let E := Sample.chain 2 None true true true in
  let m := snd (disconnectWallet Sample.loaded) in
  userVotes (state (snd (loadInformation E m))) = None /\
  List.length (calls (snd (loadInformation E m))) = (List.length (calls m) + 6)%nat.
Proof.
  intros E m.
  destruct (loadInformation_partial E m) as (_ & H).
  destruct (H Sample.storage2) as [Hc Hv]; try (vm_compute; reflexivity).
  split; [rewrite Hv; reflexivity|]. rewrite Hc, length_app. reflexivity.
Defined.
